(** * FocusVault: the fetch cache ([useApiCache]) and the study-session provider

  A shallow embedding of
  - [frontend/src/hooks/useApiCache.js] (module [ApiCache]) and
  - the [StudyProvider] context component (module [Study]),
  followed by the properties of the cache-and-coalesce mechanism.

  Asynchronous functions are split at their [await]s: the part that runs
  synchronously up to the first [await] is one function, and what runs when
  the awaited promise settles is a second function taking the outcome.  The
  suspended half is kept in the state as a first-order record (which
  function, and the values its closure captured), so that calls can
  interleave the way they do on the JavaScript event loop. *)

From stdpp Require Import gmap strings list pretty.

Open Scope string_scope.
Open Scope list_scope.
Set Warnings "-register-all".

(** ** JavaScript values *)

Module Js.

(** The JSON-like values exchanged with the server and held in React state.
    Numbers are the integers ([Date.now()], counters, durations). *)
Inductive JsVal :=
| JUndefined
| JNull
| JBool (b : bool)
| JNum (n : Z)
| JStr (s : string)
| JDate (ms : Z)
| JArr (items : list JsVal)
| JObj (props : list (string * JsVal)).

(** A thrown value: [err.name] and [err.message]. *)
Record JsError := mkError { name : string; message : string }.

(** How an awaited promise settles. For an axios call, [Resolved v] carries
    [response.data]. *)
Inductive Outcome :=
| Resolved (v : JsVal)
| Rejected (err : JsError).

(** ToBoolean. *)
Definition truthy (v : JsVal) : bool :=
  match v with
  | JUndefined | JNull => false
  | JBool b => b
  | JNum n => negb (n =? 0)%Z
  | JStr s => negb (String.eqb s "")
  | JDate _ | JArr _ | JObj _ => true
  end.

(** [a || b] *)
Definition or_else (a b : JsVal) : JsVal := if truthy a then a else b.

(** A default parameter value: used when the argument is [undefined]. *)
Definition default (arg d : JsVal) : JsVal :=
  match arg with JUndefined => d | _ => arg end.

Fixpoint assoc (k : string) (props : list (string * JsVal)) : option JsVal :=
  match props with
  | [] => None
  | (k', v) :: rest => if String.eqb k k' then Some v else assoc k rest
  end.

(** Assignment of one property: an existing key keeps its place. *)
Fixpoint assoc_set (k : string) (v : JsVal) (props : list (string * JsVal))
  : list (string * JsVal) :=
  match props with
  | [] => [(k, v)]
  | (k', v') :: rest =>
      if String.eqb k k' then (k, v) :: rest else (k', v') :: assoc_set k v rest
  end.

Fixpoint chars (s : string) : list JsVal :=
  match s with
  | EmptyString => []
  | String c rest => JStr (String c EmptyString) :: chars rest
  end.

(** The own enumerable properties copied by [{...v}]. *)
Definition spread (v : JsVal) : list (string * JsVal) :=
  match v with
  | JObj props => props
  | JArr items => imap (fun i x => (pretty i, x)) items
  | JStr s => imap (fun i x => (pretty i, x)) (chars s)
  | _ => []
  end.

(** [{...prev, k: v}] *)
Definition with_prop (prev : JsVal) (k : string) (v : JsVal) : JsVal :=
  JObj (assoc_set k v (spread prev)).

(** [v.k] for the property names the program reads ([currentSubject],
    [status], [startTime], the fields of [studyData]), none of which is
    built into arrays, strings, numbers or dates.  [None] is the [TypeError]
    thrown when [v] is [null] or [undefined]. *)
Definition member (v : JsVal) (k : string) : option JsVal :=
  match v with
  | JUndefined | JNull => None
  | JObj props => Some (match assoc k props with Some x => x | None => JUndefined end)
  | _ => Some JUndefined
  end.

(** [v?.k] *)
Definition opt_member (v : JsVal) (k : string) : JsVal :=
  match member v k with Some x => x | None => JUndefined end.

(** [v === 'lit'] *)
Definition is_string (v : JsVal) (lit : string) : bool :=
  match v with JStr s => String.eqb s lit | _ => false end.

Definition typeError : JsError :=
  mkError "TypeError" "Cannot read properties of null".

End Js.

(** ** The fetch cache: [useApiCache.js] *)

Module ApiCache.
Import Js.

(** [const CACHE_DURATION = 5 * 60 * 1000] *)
Definition CACHE_DURATION : Z := 5 * 60 * 1000.

(** A value of the module-level [cache] map: [{ data, timestamp }]. *)
Module CacheEntry.
Record t := mk { data : JsVal; timestamp : Z }.
End CacheEntry.

(** The state of one call site of [useApiCache]: the [key] argument of the
    latest render, the three [useState] cells and the [useRef] cell.  The
    ref holds the index of an [AbortController] in the store below. *)
Record Hook := mkHook {
  key : string;
  data : JsVal;
  loading : bool;
  error : option JsError;
  abortControllerRef : option nat;
}.

(** A call [fetcher(signal)] whose promise has not settled yet, with what the
    closure of [fetchData] captured: the hook it belongs to and its [key]. *)
Record Request := mkRequest {
  req_hook : nat;
  req_key : string;
  req_signal : nat;
}.

(** The module-level [cache], every hook instance, the [AbortController]
    objects created so far (their [signal.aborted] flag), the fetcher calls
    awaiting their result, and what was written with [console.error]. *)
Record Sys := mkSys {
  cache : gmap string CacheEntry.t;
  hooks : list Hook;
  controllers : list bool;
  pending : list Request;
  console : list (string * JsError);
}.

Definition init : Sys := mkSys ∅ [] [] [] [].

(** [useState(null)], [useState(true)], [useState(null)], [useRef(null)] *)
Definition useApiCache (k : string) : Hook := mkHook k JNull true None None.

(** *** State updates *)

Definition with_hooks (f : list Hook → list Hook) (s : Sys) : Sys :=
  mkSys (cache s) (f (hooks s)) (controllers s) (pending s) (console s).

Definition setData (h : nat) (v : JsVal) : Sys → Sys :=
  with_hooks (alter (fun hk =>
    mkHook (key hk) v (loading hk) (error hk) (abortControllerRef hk)) h).

Definition setLoading (h : nat) (b : bool) : Sys → Sys :=
  with_hooks (alter (fun hk =>
    mkHook (key hk) (data hk) b (error hk) (abortControllerRef hk)) h).

Definition setError (h : nat) (e : option JsError) : Sys → Sys :=
  with_hooks (alter (fun hk =>
    mkHook (key hk) (data hk) (loading hk) e (abortControllerRef hk)) h).

Definition setRef (h : nat) (c : option nat) : Sys → Sys :=
  with_hooks (alter (fun hk =>
    mkHook (key hk) (data hk) (loading hk) (error hk) c) h).

Definition setKey (h : nat) (k : string) : Sys → Sys :=
  with_hooks (alter (fun hk =>
    mkHook k (data hk) (loading hk) (error hk) (abortControllerRef hk)) h).

(** [cache.set(k, e)] and [cache.delete(k)] *)
Definition cache_set (k : string) (e : CacheEntry.t) (s : Sys) : Sys :=
  mkSys (<[k := e]> (cache s)) (hooks s) (controllers s) (pending s) (console s).

Definition cache_delete (k : string) (s : Sys) : Sys :=
  mkSys (delete k (cache s)) (hooks s) (controllers s) (pending s) (console s).

(** [controller.abort()] *)
Definition abort (c : nat) (s : Sys) : Sys :=
  mkSys (cache s) (hooks s) (<[c := true]> (controllers s)) (pending s) (console s).

(** [new AbortController()]: the new object sits at index
    [length (controllers s)]. *)
Definition newAbortController (s : Sys) : Sys :=
  mkSys (cache s) (hooks s) (controllers s ++ [false]) (pending s) (console s).

(** [fetcher(signal)] is called and awaited. *)
Definition call_fetcher (r : Request) (s : Sys) : Sys :=
  mkSys (cache s) (hooks s) (controllers s) (pending s ++ [r]) (console s).

Definition console_error (msg : string) (e : JsError) (s : Sys) : Sys :=
  mkSys (cache s) (hooks s) (controllers s) (pending s) (console s ++ [(msg, e)]).

(** *** [fetchData], up to its [await] *)

(** [Date.now() - cached.timestamp < CACHE_DURATION] *)
Definition is_fresh (now : Z) (cached : CacheEntry.t) : bool :=
  bool_decide (now - CacheEntry.timestamp cached < CACHE_DURATION)%Z.

(** Lines 22-33: cancel the previous request, create a controller, set
    [loading] and clear [error], call the fetcher. *)
Definition start_request (h : nat) (hk : Hook) (s : Sys) : Sys :=
  let s1 := match abortControllerRef hk with
            | Some c => abort c s
            | None => s
            end in
  let c := length (controllers s1) in
  let s2 := setRef h (Some c) (newAbortController s1) in
  let s3 := setError h None (setLoading h true s2) in
  call_fetcher (mkRequest h (key hk) c) s3.

(** Lines 14-33, run by the effect of hook [h] when the clock reads [now]. *)
Definition fetchData (h : nat) (now : Z) (s : Sys) : Sys :=
  match hooks s !! h with
  | None => s
  | Some hk =>
      match cache s !! key hk with
      | Some cached =>
          if is_fresh now cached
          then setLoading h false (setData h (CacheEntry.data cached) s)
          else start_request h hk s
      | None => start_request h hk s
      end
  end.

(** *** [fetchData], after its [await] (lines 33-49) *)

Definition resume (r : Request) (o : Outcome) (now : Z) (s : Sys) : Sys :=
  let s1 :=
    match o with
    | Resolved result =>
        setData (req_hook r) result
          (cache_set (req_key r) (CacheEntry.mk result now) s)
    | Rejected err =>
        if decide (name err = "AbortError") then s
        else console_error ("API Error for " +:+ req_key r +:+ ":") err
               (setError (req_hook r) (Some err) s)
    end in
  setLoading (req_hook r) false s1.

(** The effect's cleanup function (lines 54-58). *)
Definition cleanup (h : nat) (s : Sys) : Sys :=
  match hooks s !! h with
  | Some hk =>
      match abortControllerRef hk with
      | Some c => abort c s
      | None => s
      end
  | None => s
  end.

(** [invalidateCache] (lines 61-63) of hook [h]. *)
Definition invalidateCache (h : nat) (s : Sys) : Sys :=
  match hooks s !! h with
  | Some hk => cache_delete (key hk) s
  | None => s
  end.

(** *** The event loop *)

Fixpoint take_request (c : nat) (l : list Request) : option (Request * list Request) :=
  match l with
  | [] => None
  | r :: rest =>
      if decide (req_signal r = c) then Some (r, rest)
      else match take_request c rest with
           | Some (r', rest') => Some (r', r :: rest')
           | None => None
           end
  end.

Definition set_pending (l : list Request) (s : Sys) : Sys :=
  mkSys (cache s) (hooks s) (controllers s) l (console s).

(** What can happen to the cache system.
    - [Mount k]: a component renders [useApiCache(k, ...)] for the first time;
    - [Rerender h k]: hook [h] is rendered again with key [k];
    - [Effect h now]: React runs the effect of hook [h] (after mount, or
      after [key] or a dependency changed), that is [fetchData()];
    - [Cleanup h]: React runs the effect's cleanup (before a re-run, or at
      unmount);
    - [Settle c o now]: the promise of the fetcher call that was given the
      signal of controller [c] settles with [o], and [fetchData] resumes;
    - [Invalidate h]: somebody calls the [invalidateCache] of hook [h]. *)
Inductive Event :=
| Mount (k : string)
| Rerender (h : nat) (k : string)
| Effect (h : nat) (now : Z)
| Cleanup (h : nat)
| Settle (c : nat) (o : Outcome) (now : Z)
| Invalidate (h : nat).

Definition step (ev : Event) (s : Sys) : Sys :=
  match ev with
  | Mount k => with_hooks (fun hs => hs ++ [useApiCache k]) s
  | Rerender h k => setKey h k s
  | Effect h now => fetchData h now s
  | Cleanup h => cleanup h s
  | Settle c o now =>
      match take_request c (pending s) with
      | Some (r, rest) => resume r o now (set_pending rest s)
      | None => s
      end
  | Invalidate h => invalidateCache h s
  end.

Definition run (evs : list Event) (s : Sys) : Sys :=
  foldl (fun s ev => step ev s) s evs.

(** *** Observations *)

(** [signal.aborted] of controller [c]. *)
Definition aborted (s : Sys) (c : nat) : bool :=
  match controllers s !! c with Some b => b | None => false end.

(** The fetches in flight: awaited and not cancelled. *)
Definition in_flight (s : Sys) : list Request :=
  filter (fun r => aborted s (req_signal r) = false) (pending s).

Definition in_flight_for_key (s : Sys) (k : string) : list Request :=
  filter (fun r => req_key r = k) (in_flight s).

Definition in_flight_of_hook (s : Sys) (h : nat) : list Request :=
  filter (fun r => req_hook r = h) (in_flight s).

(** [fetcher] was called between [s] and [s'] for key [k]. *)
Definition fetcher_called (k : string) (s s' : Sys) : Prop :=
  ∃ r, pending s' = pending s ++ [r] ∧ req_key r = k.

(** The controller held in the ref of hook [h]. *)
Definition ref_of (s : Sys) (h : nat) : option nat :=
  hooks s !! h ≫= abortControllerRef.

(** What holds of every state the event loop can reach: signals and refs
    point to controllers that exist, no two awaited calls were given the same
    signal, and an awaited call whose signal is not aborted is the one its
    hook's ref points to. *)
Record wf (s : Sys) : Prop := mk_wf {
  wf_signal : ∀ r, r ∈ pending s → req_signal r < length (controllers s);
  wf_ref : ∀ h c, ref_of s h = Some c → c < length (controllers s);
  wf_nodup : NoDup (req_signal <$> pending s);
  wf_live : ∀ r, r ∈ pending s → aborted s (req_signal r) = false →
            ref_of s (req_hook r) = Some (req_signal r);
}.

End ApiCache.

(** ** The study-session provider: [StudyProvider] *)

Module Study.
Import Js.

(** An axios call: method, path below [API_URL], and the body or the
    query parameters. *)
Record HttpCall := mkCall { method : string; url : string; payload : JsVal }.

(** Where an asynchronous function of the provider is suspended.  A callback
    made by [useCallback] reads the [const]s of the render that created it:
    [endSession] calls, after its two [await]s, the
    [fetchDashboardAndTimetables] it was created with (dependency list, line
    215), whose [lastFetch] is the one of that render (dependency list, line
    103).  That value travels with the suspended call. *)
Inductive Continuation :=
| InFetchCurrentSession
| InFetchCompletedSubjects
| InFetchSessionStats
| InStartStudySession
| InPauseSession
| InResumeSession
| InEndSession_post (lastFetch_seen : Z)
| InEndSession_delete (lastFetch_seen : Z)
| InFetchNotes.

Record Awaiting := mkAwaiting { call : HttpCall; cont : Continuation }.

(** The provider's [useState] cells, its two [useApiCache] instances together
    with the module-level cache they share with every other consumer ([api]),
    the axios calls being awaited, the [console.error] output and the values
    returned to callers of [fetchSessionStats]. *)
Record World := mkWorld {
  api : ApiCache.Sys;
  studyData : JsVal;
  currentSession : JsVal;
  isStudying : bool;
  loadingNotes : bool;
  lastFetch : Z;
  awaiting : list Awaiting;
  console : list (string * JsError);
  returned : list JsVal;
}.

(** Lines 16-31. Hook 0 is [useApiCache('dashboard', ...)], hook 1 is
    [useApiCache('timetables', ...)]. *)
Definition initial : World :=
  mkWorld
    (ApiCache.run [ApiCache.Mount "dashboard"; ApiCache.Mount "timetables"]
       ApiCache.init)
    (JObj [("todayReading", JNum 0); ("studySessions", JNum 0);
           ("currentStreak", JNum 0); ("highestStreak", JNum 0);
           ("weeklyData", JArr []); ("timetables", JArr []);
           ("activeTimetable", JNull); ("notes", JArr []);
           ("completedSubjects", JArr [])])
    JNull false false 0 [] [] [].

(** *** State updates *)

Definition on_api (f : ApiCache.Sys → ApiCache.Sys) (w : World) : World :=
  mkWorld (f (api w)) (studyData w) (currentSession w) (isStudying w)
    (loadingNotes w) (lastFetch w) (awaiting w) (console w) (returned w).

Definition setStudyData (f : JsVal → JsVal) (w : World) : World :=
  mkWorld (api w) (f (studyData w)) (currentSession w) (isStudying w)
    (loadingNotes w) (lastFetch w) (awaiting w) (console w) (returned w).

Definition setCurrentSession (f : JsVal → JsVal) (w : World) : World :=
  mkWorld (api w) (studyData w) (f (currentSession w)) (isStudying w)
    (loadingNotes w) (lastFetch w) (awaiting w) (console w) (returned w).

Definition setIsStudying (b : bool) (w : World) : World :=
  mkWorld (api w) (studyData w) (currentSession w) b
    (loadingNotes w) (lastFetch w) (awaiting w) (console w) (returned w).

Definition setLoadingNotes (b : bool) (w : World) : World :=
  mkWorld (api w) (studyData w) (currentSession w) (isStudying w)
    b (lastFetch w) (awaiting w) (console w) (returned w).

Definition setLastFetch (t : Z) (w : World) : World :=
  mkWorld (api w) (studyData w) (currentSession w) (isStudying w)
    (loadingNotes w) t (awaiting w) (console w) (returned w).

Definition set_awaiting (l : list Awaiting) (w : World) : World :=
  mkWorld (api w) (studyData w) (currentSession w) (isStudying w)
    (loadingNotes w) (lastFetch w) l (console w) (returned w).

(** [await axios.<method>(...)]: the function is suspended at [k]. *)
Definition await (c : HttpCall) (k : Continuation) (w : World) : World :=
  set_awaiting (awaiting w ++ [mkAwaiting c k]) w.

Definition console_error (msg : string) (e : JsError) (w : World) : World :=
  mkWorld (api w) (studyData w) (currentSession w) (isStudying w)
    (loadingNotes w) (lastFetch w) (awaiting w) (console w ++ [(msg, e)])
    (returned w).

Definition return_ (v : JsVal) (w : World) : World :=
  mkWorld (api w) (studyData w) (currentSession w) (isStudying w)
    (loadingNotes w) (lastFetch w) (awaiting w) (console w) (returned w ++ [v]).

(** *** The cached reads *)

(** The [invalidateCache] returned by [useApiCache('dashboard', ...)]:
    [cache.delete(key)] with [key = 'dashboard']; likewise for
    ['timetables']. *)
Definition invalidateDashboard : World → World :=
  on_api (ApiCache.cache_delete "dashboard").

Definition invalidateTimetables : World → World :=
  on_api (ApiCache.cache_delete "timetables").

(** Lines 95-103. [lastFetch_seen] is the [lastFetch] the callback was
    created with, [now] is [Date.now()]. *)
Definition fetchDashboardAndTimetables (lastFetch_seen now : Z) (w : World) : World :=
  if bool_decide (now - lastFetch_seen < 2000)%Z then w
  else invalidateTimetables (invalidateDashboard (setLastFetch now w)).

(** *** The direct reads and the session operations, up to their first [await] *)

(** Lines 105-107. *)
Definition fetchCurrentSession : World → World :=
  await (mkCall "GET" "/api/study/state" JUndefined) InFetchCurrentSession.

(** Lines 117-119. *)
Definition fetchCompletedSubjects : World → World :=
  await (mkCall "GET" "/api/study/sessions/today" JUndefined)
    InFetchCompletedSubjects.

(** Lines 139-143. *)
Definition fetchSessionStats (period : JsVal) : World → World :=
  await (mkCall "GET" "/api/study/sessions/stats"
           (JObj [("period", default period (JStr "week"))]))
    InFetchSessionStats.

(** Lines 151-159. *)
Definition startStudySession (subject : JsVal) (now : Z) : World → World :=
  await (mkCall "POST" "/api/study/state"
           (JObj [("currentSubject", subject); ("elapsedTime", JNum 0);
                  ("startTime", JDate now); ("status", JStr "active")]))
    InStartStudySession.

(** Lines 167-172. *)
Definition pauseSession (w : World) : World :=
  await (mkCall "POST" "/api/study/state"
           (with_prop (currentSession w) "status" (JStr "paused")))
    InPauseSession w.

(** Lines 180-185. *)
Definition resumeSession (w : World) : World :=
  await (mkCall "POST" "/api/study/state"
           (with_prop (currentSession w) "status" (JStr "active")))
    InResumeSession w.

(** Lines 193-204. Reading [currentSession.currentSubject] throws inside the
    [try] when there is no current session. *)
Definition endSession (actualTime notes targetTime : JsVal) (now : Z) (w : World) : World :=
  match member (currentSession w) "currentSubject",
        member (currentSession w) "startTime" with
  | Some subject, Some startTime =>
      await (mkCall "POST" "/api/study/sessions"
               (JObj [("subject", subject); ("actualTime", actualTime);
                      ("targetTime", targetTime); ("startTime", startTime);
                      ("endTime", JDate now); ("completed", JBool true);
                      ("notes", default notes (JStr ""))]))
        (InEndSession_post (lastFetch w)) w
  | _, _ => console_error "Failed to end session:" typeError w
  end.

(** Lines 217-221. *)
Definition fetchNotes (search subject page limit : JsVal) (w : World) : World :=
  await (mkCall "GET" "/api/study/notes"
           (JObj [("search", default search (JStr ""));
                  ("subject", default subject (JStr ""));
                  ("page", default page (JNum 1));
                  ("limit", default limit (JNum 20))]))
    InFetchNotes (setLoadingNotes true w).

(** *** After an [await] *)

(** The function suspended at [k] resumes with outcome [o] of its axios call,
    the clock reading [now]. *)
Definition resume (k : Continuation) (o : Outcome) (now : Z) (w : World) : World :=
  match k, o with
  (* fetchCurrentSession, lines 108-114 *)
  | InFetchCurrentSession, Resolved d =>
      if truthy (opt_member d "currentSubject")
      then setIsStudying (is_string (opt_member d "status") "active")
             (setCurrentSession (fun _ => d) w)
      else w
  | InFetchCurrentSession, Rejected err =>
      console_error "Failed to fetch session state:" err w
  (* fetchCompletedSubjects, lines 120-130 *)
  | InFetchCompletedSubjects, Resolved d =>
      setStudyData (fun prev =>
        with_prop prev "completedSubjects" (or_else d (JArr []))) w
  | InFetchCompletedSubjects, Rejected err =>
      setStudyData (fun prev => with_prop prev "completedSubjects" (JArr []))
        (console_error "Failed to fetch completed subjects:" err w)
  (* fetchSessionStats, lines 144-148 *)
  | InFetchSessionStats, Resolved d => return_ d w
  | InFetchSessionStats, Rejected err =>
      return_ JNull (console_error "Failed to fetch session stats:" err w)
  (* startStudySession, lines 160-164 *)
  | InStartStudySession, Resolved d =>
      setIsStudying true (setCurrentSession (fun _ => d) w)
  | InStartStudySession, Rejected err =>
      console_error "Failed to start session:" err w
  (* pauseSession, lines 173-177 *)
  | InPauseSession, Resolved _ =>
      setIsStudying false
        (setCurrentSession (fun prev => with_prop prev "status" (JStr "paused")) w)
  | InPauseSession, Rejected err =>
      console_error "Failed to pause session:" err w
  (* resumeSession, lines 186-190 *)
  | InResumeSession, Resolved _ =>
      setIsStudying true
        (setCurrentSession (fun prev => with_prop prev "status" (JStr "active")) w)
  | InResumeSession, Rejected err =>
      console_error "Failed to resume session:" err w
  (* endSession, line 205 *)
  | InEndSession_post seen, Resolved _ =>
      await (mkCall "DELETE" "/api/study/state" JUndefined)
        (InEndSession_delete seen) w
  (* endSession, lines 206-211 *)
  | InEndSession_delete seen, Resolved _ =>
      fetchCompletedSubjects
        (fetchDashboardAndTimetables seen now
           (setIsStudying false (setCurrentSession (fun _ => JNull) w)))
  (* endSession, lines 212-214 *)
  | InEndSession_post _, Rejected err
  | InEndSession_delete _, Rejected err =>
      console_error "Failed to end session:" err w
  (* fetchNotes, lines 222-227 *)
  | InFetchNotes, Resolved d =>
      setLoadingNotes false
        (setStudyData (fun prev => with_prop prev "notes" d) w)
  | InFetchNotes, Rejected err =>
      setLoadingNotes false (console_error "Failed to fetch notes:" err w)
  end.

(** *** The event loop *)

(** A call of one of the functions the provider exposes (made through the
    callbacks of the latest render), an event of the cache system, or the
    settling of the [i]-th awaited axios call. *)
Inductive Event :=
| Cache (e : ApiCache.Event)
| CallFetchDashboardAndTimetables (now : Z)
| CallFetchCurrentSession
| CallFetchCompletedSubjects
| CallFetchSessionStats (period : JsVal)
| CallStartStudySession (subject : JsVal) (now : Z)
| CallPauseSession
| CallResumeSession
| CallEndSession (actualTime notes targetTime : JsVal) (now : Z)
| CallFetchNotes (search subject page limit : JsVal)
| Response (i : nat) (o : Outcome) (now : Z).

Definition step (ev : Event) (w : World) : World :=
  match ev with
  | Cache e => on_api (ApiCache.step e) w
  | CallFetchDashboardAndTimetables now =>
      fetchDashboardAndTimetables (lastFetch w) now w
  | CallFetchCurrentSession => fetchCurrentSession w
  | CallFetchCompletedSubjects => fetchCompletedSubjects w
  | CallFetchSessionStats period => fetchSessionStats period w
  | CallStartStudySession subject now => startStudySession subject now w
  | CallPauseSession => pauseSession w
  | CallResumeSession => resumeSession w
  | CallEndSession actualTime notes targetTime now =>
      endSession actualTime notes targetTime now w
  | CallFetchNotes search subject page limit =>
      fetchNotes search subject page limit w
  | Response i o now =>
      match awaiting w !! i with
      | Some a => resume (cont a) o now (set_awaiting (delete i (awaiting w)) w)
      | None => w
      end
  end.

Definition run (evs : list Event) (w : World) : World :=
  foldl (fun w ev => step ev w) w evs.

(** The effects run when the provider mounts, in the order of their
    declaration: the two [useApiCache] effects (lines 65, 71), then
    [fetchCurrentSession(); fetchCompletedSubjects()] (lines 134-137). *)
Definition mount (now : Z) : list Event :=
  [Cache (ApiCache.Effect 0 now); Cache (ApiCache.Effect 1 now);
   CallFetchCurrentSession; CallFetchCompletedSubjects].

(** The cache entry of key [k]. *)
Definition cached (w : World) (k : string) : option ApiCache.CacheEntry.t :=
  ApiCache.cache (api w) !! k.


(** [ev] is a call that can reach line 96: a direct call of
    [fetchDashboardAndTimetables], or a call of [endSession]. *)
Definition may_refresh (ev : Event) : bool :=
  match ev with
  | CallFetchDashboardAndTimetables _ | CallEndSession _ _ _ _ => true
  | _ => false
  end.

(** [k] is a suspension point of [endSession]. *)
Definition in_endSession (k : Continuation) : bool :=
  match k with
  | InEndSession_post _ | InEndSession_delete _ => true
  | _ => false
  end.

End Study.

(** ** Concrete runs *)

Module Scenarios.
Import Js.

Definition abortError : JsError := mkError "AbortError" "The operation was aborted".
Definition networkError : JsError := mkError "AxiosError" "Network Error".

Definition summary : JsVal :=
  JObj [("todayReading", JNum 30); ("studySessions", JNum 2)].

(** One consumer fetches ['dashboard'] at t = 0 and gets [summary]. *)
Definition warm : ApiCache.Sys :=
  ApiCache.run
    [ApiCache.Mount "dashboard"; ApiCache.Effect 0 0;
     ApiCache.Settle 0 (Resolved summary) 0]
    ApiCache.init.

(** One consumer starts a fetch at t = 1000; a dependency changes, React
    runs the cleanup and the effect again at t = 1500: controller 0 is
    aborted and a second fetch (controller 1) starts. *)
Definition superseded : ApiCache.Sys :=
  ApiCache.run
    [ApiCache.Mount "dashboard"; ApiCache.Effect 0 1000;
     ApiCache.Cleanup 0; ApiCache.Effect 0 1500]
    ApiCache.init.

(** Two components use the hook with the same key and mount together. *)
Definition two_consumers : ApiCache.Sys :=
  ApiCache.run
    [ApiCache.Mount "dashboard"; ApiCache.Mount "dashboard";
     ApiCache.Effect 0 0; ApiCache.Effect 1 0]
    ApiCache.init.

(** The record the server stores for a session started at t = 100. *)
Definition session : JsVal :=
  JObj [("currentSubject", JStr "Math"); ("elapsedTime", JNum 0);
        ("startTime", JDate 100); ("status", JStr "active")].

(** The provider mounts at t = 0 and a session is started.  [endSession] is
    called at t = 2000, from a render in which [lastFetch] is still 0.  While
    its POST is awaited, [fetchDashboardAndTimetables] is called directly at
    t = 2100 and accepted; the dashboard fetch started at mount resolves at
    t = 2300 and fills the cache; the POST succeeds at t = 2400. *)
Definition ending : Study.World :=
  Study.run
    (Study.mount 0 ++
     [Study.Response 0 (Resolved JNull) 50;
      Study.Response 0 (Resolved (JArr [])) 60;
      Study.CallStartStudySession (JStr "Math") 100;
      Study.Response 0 (Resolved session) 150;
      Study.CallEndSession (JNum 25) JUndefined (JNum 30) 2000;
      Study.CallFetchDashboardAndTimetables 2100;
      Study.Cache (ApiCache.Settle 0 (Resolved summary) 2300);
      Study.Response 0 (Resolved JNull) 2400])
    Study.initial.

(** The DELETE of that [endSession] call succeeds at t = 2500 and line 210
    runs. *)
Definition ended : Study.World :=
  Study.step (Study.Response 0 (Resolved JNull) 2500) ending.

(** A provider that shows one completed subject and is studying. *)
Definition studying : Study.World :=
  Study.run
    (Study.mount 0 ++
     [Study.Response 0 (Resolved session) 50;
      Study.Response 0 (Resolved (JArr [JStr "Physics"])) 60])
    Study.initial.

End Scenarios.

(** ** Further observations on the fetch cache *)

Module CacheObs.
Import Js ApiCache.

(** [ev] is a render or an effect run of hook [h], or settles a fetch that
    hook [h] started. *)
Definition concerns (ev : Event) (s : Sys) (h : nat) : bool :=
  match ev with
  | Rerender h' _ | Effect h' _ => bool_decide (h' = h)
  | Settle c _ _ =>
      match take_request c (pending s) with
      | Some (r, _) => bool_decide (req_hook r = h)
      | None => false
      end
  | Mount _ | Cleanup _ | Invalidate _ => false
  end.

End CacheObs.

(** ** The provider's effects on the cached data (lines 74-92) *)

Module StudySync.
Import Js Study.



(** [items.find(t => t.isActive)]: the first element whose [isActive] is
    truthy, [undefined] when there is none.  [None] is the [TypeError] thrown
    when an element read on the way is [null] or [undefined].  ([isActive] is
    not a built-in property of any value.) *)
Fixpoint find_active (items : list JsVal) : option JsVal :=
  match items with
  | [] => Some JUndefined
  | t :: rest =>
      match member t "isActive" with
      | None => None
      | Some a => if truthy a then Some t else find_active rest
      end
  end.

(** Lines 83-92: the effect run when [timetablesData] changes.  [None]: the
    effect throws, because the data is not an array (it has no [find]) or
    because [find_active] throws. *)
Definition syncTimetables (timetablesData : JsVal) (w : World) : option World :=
  if truthy timetablesData then
    match timetablesData with
    | JArr items =>
        match find_active items with
        | Some active =>
            Some (setStudyData (fun prev =>
                    with_prop (with_prop prev "timetables" timetablesData)
                      "activeTimetable" active) w)
        | None => None
        end
    | _ => None
    end
  else Some w.

End StudySync.

(** ** The route table: [App] *)

Module App.
Import Js.

Inductive Page :=
| Home | ReadingSpace | Todo | Calendar | Profile | About | Login | Register.

Inductive Layout := MainLayout | AuthLayout.

(** What [App] renders: the loading screen, the e-mail verification screen,
    a page inside a layout, or a redirect. *)
Inductive Screen :=
| LoadingScreen
| EmailVerification
| Show (layout : Layout) (page : Page)
| Navigate (to : string).

(** [user?.emailVerified !== false] *)
Definition isEmailVerified (user : JsVal) : bool :=
  match opt_member user "emailVerified" with
  | JBool false => false
  | _ => true
  end.

Section Routes.

(** The router's test of a route path against the location.  Among routes
    that match, the router prefers a literal path to ["*"]; the tables below
    list ["*"] last. *)
Variable matches : string → string → bool.

Fixpoint pick (routes : list (string * Screen)) (splat : Screen)
    (location : string) : Screen :=
  match routes with
  | [] => splat
  | (path, element) :: rest =>
      if matches path location then element else pick rest splat location
  end.

(** The [<Routes>] for a verified user. *)
Definition mainRoutes : list (string * Screen) :=
  [("/", Show MainLayout Home); ("/reading", Show MainLayout ReadingSpace);
   ("/todo", Show MainLayout Todo); ("/calendar", Show MainLayout Calendar);
   ("/profile", Show MainLayout Profile); ("/about", Show MainLayout About)].

(** The [<Routes>] for a visitor. *)
Definition authRoutes : list (string * Screen) :=
  [("/login", Show AuthLayout Login); ("/register", Show AuthLayout Register);
   ("/about", Show AuthLayout About)].

(** [App], with [{ user, loading }] from [useAuth()] and the location. *)
Definition App (loading : bool) (user : JsVal) (location : string) : Screen :=
  if loading then LoadingScreen
  else if truthy user then
    if negb (isEmailVerified user) then EmailVerification
    else pick mainRoutes (Navigate "/") location
  else pick authRoutes (Navigate "/login") location.

End Routes.


End App.

(** ** The e-mail verification screen: [EmailVerification.jsx] *)

Module EmailVerification.
Import Js.

(** How the awaited POST settles; a rejection carries the thrown value. *)
Inductive Settled :=
| Fulfilled (response : JsVal)
| Thrown (error : JsVal).

Inductive Toast :=
| ToastSuccess (msg : JsVal)
| ToastError (msg : JsVal).

(** The two [useState] cells, the bodies of the POSTs being awaited, and the
    toasts shown. *)
Record State := mkState {
  isResending : bool;
  countdown : Z;
  awaiting : list JsVal;
  toasts : list Toast;
}.

(** [useState(false)], [useState(0)] *)
Definition init : State := mkState false 0 [] [].

Definition setIsResending (b : bool) (st : State) : State :=
  mkState b (countdown st) (awaiting st) (toasts st).

Definition setCountdown (n : Z) (st : State) : State :=
  mkState (isResending st) n (awaiting st) (toasts st).

Definition toast (t : Toast) (st : State) : State :=
  mkState (isResending st) (countdown st) (awaiting st) (toasts st ++ [t]).

Definition post (body : JsVal) (st : State) : State :=
  mkState (isResending st) (countdown st) (awaiting st ++ [body]) (toasts st).

(** The [catch] block at lines 34-35.  Reading [error.response] throws again
    when the thrown value is [null] or [undefined]; then no toast is shown. *)
Definition on_error (error : JsVal) (st : State) : State :=
  match member error "response" with
  | Some response =>
      toast (ToastError
               (or_else (opt_member (opt_member response "data") "message")
                  (JStr "Failed to resend verification email"))) st
  | None => st
  end.

(** The [TypeError] object thrown by [user.email]. *)
Definition typeErrorObject : JsVal :=
  JObj [("name", JStr "TypeError");
        ("message", JStr "Cannot read properties of null")].

(** Lines 23-30, up to the [await]. *)
Definition handleResendVerification (user : JsVal) (st : State) : State :=
  if (0 <? countdown st)%Z || isResending st then st
  else
    let st1 := setIsResending true st in
    match member user "email" with
    | Some email => post (JObj [("email", email)]) st1
    | None => setIsResending false (on_error typeErrorObject st1)
    end.

(** Lines 32-38, after the [await]. *)
Definition resume (o : Settled) (st : State) : State :=
  setIsResending false
    match o with
    | Fulfilled _ =>
        setCountdown 60
          (toast (ToastSuccess
                    (JStr "Verification email sent! Check your inbox.")) st)
    | Thrown error => on_error error st
    end.

(** Lines 15-21: when [countdown > 0] a timer is armed that, one second
    later, sets the countdown to one less. *)
Definition tick (st : State) : State :=
  if (0 <? countdown st)%Z then setCountdown (countdown st - 1) st else st.

(** A click on the resend button (the handler of the latest render, with
    the [user] of [useAuth()]), the settling of the awaited POST, or the
    one-second timer firing. *)
Inductive Event :=
| Click (user : JsVal)
| Response (o : Settled)
| Tick.

Definition step (ev : Event) (st : State) : State :=
  match ev with
  | Click user => handleResendVerification user st
  | Response o =>
      match awaiting st with
      | _ :: rest =>
          resume o (mkState (isResending st) (countdown st) rest (toasts st))
      | [] => st
      end
  | Tick => tick st
  end.

Definition run (evs : list Event) (st : State) : State :=
  foldl (fun st ev => step ev st) st evs.

(** What holds in every state the screen reaches. *)
Record ok (st : State) : Prop := mk_ok {
  ok_range : (0 ≤ countdown st ≤ 60)%Z;
  ok_flag : isResending st = bool_decide (awaiting st ≠ []);
  ok_one : (length (awaiting st) ≤ 1)%nat;
  ok_idle : awaiting st ≠ [] → countdown st = 0%Z;
}.

End EmailVerification.

(** ** More concrete runs *)

Module MoreScenarios.
Import Js.

(** A session record whose status is ['paused']. *)
Definition pausedSession : JsVal :=
  JObj [("currentSubject", JStr "Math"); ("elapsedTime", JNum 600);
        ("startTime", JDate 100); ("status", JStr "paused")].

Definition timetableA : JsVal :=
  JObj [("name", JStr "Week A"); ("isActive", JBool false)].
Definition timetableB : JsVal :=
  JObj [("name", JStr "Week B"); ("isActive", JBool true)].
Definition timetableC : JsVal :=
  JObj [("name", JStr "Week C"); ("isActive", JBool true)].

Definition unverifiedUser : JsVal :=
  JObj [("email", JStr "a@b.c"); ("emailVerified", JBool false)].
Definition plainUser : JsVal :=
  JObj [("email", JStr "a@b.c")].

(** An axios error that carries a message of the server. *)
Definition rateLimited : JsVal :=
  JObj [("response",
         JObj [("data", JObj [("message", JStr "Too many requests")])])].


(** Route paths compared literally. *)
Definition literally (path location : string) : bool := String.eqb path location.

End MoreScenarios.

(** ** Properties of the fetch cache *)

Module CacheFacts.
Import Js ApiCache.

(** *** What each update touches *)

Local Ltac solve_lookup_alter :=
  unfold with_hooks; simpl; rewrite list_lookup_alter;
  case_decide; subst; done.

Lemma lookup_setData h v s i :
  hooks (setData h v s) !! i =
  if decide (h = i)
  then (λ hk, mkHook (key hk) v (loading hk) (error hk) (abortControllerRef hk))
         <$> hooks s !! i
  else hooks s !! i.
Proof. unfold setData. solve_lookup_alter. Qed.

Lemma lookup_setLoading h b s i :
  hooks (setLoading h b s) !! i =
  if decide (h = i)
  then (λ hk, mkHook (key hk) (data hk) b (error hk) (abortControllerRef hk))
         <$> hooks s !! i
  else hooks s !! i.
Proof. unfold setLoading. solve_lookup_alter. Qed.

Lemma lookup_setError h e s i :
  hooks (setError h e s) !! i =
  if decide (h = i)
  then (λ hk, mkHook (key hk) (data hk) (loading hk) e (abortControllerRef hk))
         <$> hooks s !! i
  else hooks s !! i.
Proof. unfold setError. solve_lookup_alter. Qed.

Lemma lookup_setRef h c s i :
  hooks (setRef h c s) !! i =
  if decide (h = i)
  then (λ hk, mkHook (key hk) (data hk) (loading hk) (error hk) c)
         <$> hooks s !! i
  else hooks s !! i.
Proof. unfold setRef. solve_lookup_alter. Qed.

Lemma lookup_setKey h k s i :
  hooks (setKey h k s) !! i =
  if decide (h = i)
  then (λ hk, mkHook k (data hk) (loading hk) (error hk) (abortControllerRef hk))
         <$> hooks s !! i
  else hooks s !! i.
Proof. unfold setKey. solve_lookup_alter. Qed.

(** The miss path leaves the cache alone and calls the fetcher once, with a
    fresh controller. *)
Lemma start_request_fields h hk s :
  let s' := start_request h hk s in
  cache s' = cache s ∧
  console s' = console s ∧
  pending s' = pending s ++ [mkRequest h (key hk) (length (controllers s))] ∧
  controllers s' =
    match abortControllerRef hk with
    | Some c => <[c := true]> (controllers s)
    | None => controllers s
    end ++ [false].
Proof.
  unfold start_request. destruct (abortControllerRef hk); simpl;
    rewrite ?length_insert; done.
Qed.

Lemma resume_rejected_cache r err now s :
  cache (resume r (Rejected err) now s) = cache s.
Proof. unfold resume. by case_decide. Qed.

Lemma resume_fields r o now s :
  controllers (resume r o now s) = controllers s ∧
  pending (resume r o now s) = pending s.
Proof. unfold resume. destruct o; [done|]. by case_decide. Qed.

(** A rejected fetch leaves every hook's [data] as it was. *)
Lemma resume_rejected_data r err now s h :
  data <$> hooks (resume r (Rejected err) now s) !! h = data <$> hooks s !! h.
Proof.
  unfold resume. rewrite lookup_setLoading.
  assert (∀ s0, data <$> hooks s0 !! h = data <$> hooks s !! h →
    data <$> (if decide (req_hook r = h)
              then (λ hk, mkHook (key hk) (data hk) false (error hk)
                            (abortControllerRef hk)) <$> hooks s0 !! h
              else hooks s0 !! h) = data <$> hooks s !! h) as Hl.
  { intros s0 <-. case_decide; [|done]. by destruct (hooks s0 !! h). }
  destruct (decide (name err = "AbortError")); apply Hl; [done|].
  change (hooks (console_error ?m ?e ?s0)) with (hooks s0).
  rewrite lookup_setError. case_decide; [|done]. by destruct (hooks s !! h).
Qed.

Lemma run_snoc evs ev s : run (evs ++ [ev]) s = step ev (run evs s).
Proof. unfold run. by rewrite foldl_app. Qed.

(** *** Reads within the time-to-live *)

(** C1. A read of a key whose cache entry is younger than the TTL of five
    minutes returns the cached value with [loading = false] and does not call
    the fetcher: no request is added, no controller is created or aborted,
    and the cache is left as it is. *)
Theorem C1_live_entry_is_served_without_fetch
    (s : Sys) (h : nat) (hk : Hook) (e : CacheEntry.t) (now : Z) :
  hooks s !! h = Some hk →
  cache s !! key hk = Some e →
  (now - CacheEntry.timestamp e < 5 * 60 * 1000)%Z →
  let s' := fetchData h now s in
  hooks s' !! h =
    Some (mkHook (key hk) (CacheEntry.data e) false (error hk)
            (abortControllerRef hk)) ∧
  pending s' = pending s ∧
  controllers s' = controllers s ∧
  cache s' = cache s.
Proof.
  intros Hh Hc Hage. unfold fetchData. rewrite Hh, Hc.
  unfold is_fresh, CACHE_DURATION.
  rewrite bool_decide_eq_true_2 by done.
  rewrite lookup_setLoading, lookup_setData, Hh. simpl.
  by rewrite !decide_True by done.
Qed.

Lemma C1_witness :
  hooks (fetchData 0 1000 Scenarios.warm) !! 0 =
    Some (mkHook "dashboard" Scenarios.summary false None (Some 0)) ∧
  pending (fetchData 0 1000 Scenarios.warm) = [].
Proof.
  pose proof (C1_live_entry_is_served_without_fetch Scenarios.warm 0
    (mkHook "dashboard" Scenarios.summary false None (Some 0))
    (CacheEntry.mk Scenarios.summary 0) 1000) as H.
  simpl in H. destruct H as (H1 & H2 & _).
  - reflexivity.
  - vm_compute. reflexivity.
  - lia.
  - split; [exact H1 | exact H2].
Defined.

(** *** Cancelled fetches *)

(** C2, as the code has it. When the awaited fetch fails with the name
    [AbortError], [fetchData] leaves [data], [error], the cache and the
    console as they were, and its [finally] block sets [loading] to
    [false]. *)
Theorem C2_cancelled_fetch_only_clears_loading
    (s : Sys) (r : Request) (err : JsError) (now : Z) (hk : Hook) :
  name err = "AbortError" →
  hooks s !! req_hook r = Some hk →
  let s' := resume r (Rejected err) now s in
  hooks s' !! req_hook r =
    Some (mkHook (key hk) (data hk) false (error hk) (abortControllerRef hk)) ∧
  (∀ i, i ≠ req_hook r → hooks s' !! i = hooks s !! i) ∧
  cache s' = cache s ∧
  console s' = console s.
Proof.
  intros Hname Hh s'. subst s'. unfold resume.
  rewrite decide_True by done. repeat split.
  - rewrite lookup_setLoading, decide_True by done. by rewrite Hh.
  - intros i Hi. rewrite lookup_setLoading. by rewrite decide_False.
Qed.

Lemma C2_witness :
  hooks (resume (mkRequest 0 "dashboard" 0) (Rejected Scenarios.abortError)
           1600 Scenarios.superseded) !! 0 =
    Some (mkHook "dashboard" JNull false None (Some 1)).
Proof.
  refine (proj1 (C2_cancelled_fetch_only_clears_loading Scenarios.superseded
    (mkRequest 0 "dashboard" 0) Scenarios.abortError 1600
    (mkHook "dashboard" JNull true None (Some 1)) _ _)); reflexivity.
Defined.

(** C2, as stated, fails: request 0 was superseded by request 1 and rejects
    with [AbortError]; [loading] was [true] and becomes [false], while
    request 1 is still in flight. *)
Lemma C2_counterexample :
  let s := Scenarios.superseded in
  let s' := step (Settle 0 (Rejected Scenarios.abortError) 1600) s in
  name Scenarios.abortError = "AbortError" ∧
  loading <$> hooks s !! 0 = Some true ∧
  loading <$> hooks s' !! 0 = Some false ∧
  in_flight s' = [mkRequest 0 "dashboard" 1].
Proof. vm_compute. done. Qed.

(** *** Invalidation *)

(** C5. [invalidateCache] removes the entry of the hook's key whatever its
    age, and touches neither the awaited fetches nor the controllers nor any
    hook's state; the next read of that key, by any consumer and at any time,
    calls the fetcher. *)
Theorem C5_invalidate_then_read_fetches (s : Sys) (h : nat) (hk : Hook) :
  hooks s !! h = Some hk →
  let s1 := invalidateCache h s in
  cache s1 !! key hk = None ∧
  pending s1 = pending s ∧
  controllers s1 = controllers s ∧
  in_flight s1 = in_flight s ∧
  hooks s1 = hooks s ∧
  ∀ h' hk' now,
    hooks s1 !! h' = Some hk' → key hk' = key hk →
    fetcher_called (key hk) s1 (fetchData h' now s1).
Proof.
  intros Hh s1. subst s1. unfold invalidateCache. rewrite Hh.
  repeat split; try done.
  - apply lookup_delete_eq.
  - intros h' hk' now Hh' Hk. unfold fetchData. rewrite Hh'.
    simpl. rewrite Hk, lookup_delete_eq.
    eexists. split; [apply start_request_fields | by rewrite <- Hk].
Qed.

Lemma C5_witness :
  cache (invalidateCache 0 Scenarios.warm) !! "dashboard" = None ∧
  fetcher_called "dashboard" (invalidateCache 0 Scenarios.warm)
    (fetchData 0 1 (invalidateCache 0 Scenarios.warm)).
Proof.
  pose proof (C5_invalidate_then_read_fetches Scenarios.warm 0
    (mkHook "dashboard" Scenarios.summary false None (Some 0))) as H.
  simpl in H. destruct H as (H1 & _ & _ & _ & _ & H2); [reflexivity|].
  split; [exact H1|].
  apply (H2 0 (mkHook "dashboard" Scenarios.summary false None (Some 0)) 1%Z);
    reflexivity.
Defined.

(** *** The invariant of the event loop *)

Lemma take_request_sublist c l r rest :
  take_request c l = Some (r, rest) →
  req_signal r = c ∧ r ∈ l ∧ rest `sublist_of` l.
Proof.
  revert r rest. induction l as [|x l IH]; intros r rest; simpl; [done|].
  case_decide as E.
  - intros [= <- <-]. split_and!; [done|left|by apply sublist_cons].
  - destruct (take_request c l) as [[r' rest']|]; [|done].
    intros [= <- <-]. destruct (IH _ _ eq_refl) as (? & ? & ?).
    split_and!; [done|by right|by apply sublist_skip].
Qed.

Lemma ref_of_setData h v s i : ref_of (setData h v s) i = ref_of s i.
Proof.
  unfold ref_of. rewrite lookup_setData. case_decide; [|done].
  by destruct (hooks s !! i).
Qed.

Lemma ref_of_setLoading h b s i : ref_of (setLoading h b s) i = ref_of s i.
Proof.
  unfold ref_of. rewrite lookup_setLoading. case_decide; [|done].
  by destruct (hooks s !! i).
Qed.

Lemma ref_of_setError h e s i : ref_of (setError h e s) i = ref_of s i.
Proof.
  unfold ref_of. rewrite lookup_setError. case_decide; [|done].
  by destruct (hooks s !! i).
Qed.

Lemma ref_of_setKey h k s i : ref_of (setKey h k s) i = ref_of s i.
Proof.
  unfold ref_of. rewrite lookup_setKey. case_decide; [|done].
  by destruct (hooks s !! i).
Qed.

Lemma ref_of_setRef h c s i :
  ref_of (setRef h c s) i =
  if decide (h = i) then hooks s !! i ≫= (λ _, c) else ref_of s i.
Proof.
  unfold ref_of. rewrite lookup_setRef. case_decide; [|done].
  by destruct (hooks s !! i).
Qed.

Lemma ref_of_call_fetcher r s i : ref_of (call_fetcher r s) i = ref_of s i.
Proof. done. Qed.

Lemma ref_of_resume r o now s i : ref_of (resume r o now s) i = ref_of s i.
Proof.
  unfold resume. rewrite ref_of_setLoading. destruct o as [v|err].
  - by rewrite ref_of_setData.
  - case_decide; [done|]. unfold console_error, ref_of; simpl.
    apply (ref_of_setError _ _ s).
Qed.

(** A state that differs from a well-formed one only in the cache, the
    console, fields of hooks other than the ref, and by awaited calls that
    went away, is well formed. *)
Lemma wf_same s s' :
  wf s →
  (∀ i, ref_of s' i = ref_of s i) →
  controllers s' = controllers s →
  pending s' `sublist_of` pending s →
  wf s'.
Proof.
  intros [H1 H2 H3 H4] Href Hc Hp.
  assert (∀ r, r ∈ pending s' → r ∈ pending s) as Hin
    by (intros r Hr; eapply elem_of_sublist; eauto).
  split.
  - intros r Hr. rewrite Hc. auto.
  - intros h c. rewrite Href, Hc. apply H2.
  - eapply sublist_NoDup; [exact H3|]. by apply fmap_sublist.
  - intros r Hr Ha. rewrite Href. apply H4; [auto|].
    unfold aborted in *. by rewrite <- Hc.
Qed.

Lemma aborted_abort c s c' :
  aborted (abort c s) c' = false → aborted s c' = false.
Proof.
  unfold aborted, abort; simpl. rewrite list_lookup_insert.
  case_decide as E; [|done]. destruct E as [-> Hlt]. done.
Qed.

Lemma wf_abort c s : wf s → wf (abort c s).
Proof.
  intros [H1 H2 H3 H4]. split; simpl.
  - intros r Hr. rewrite length_insert. auto.
  - intros h c'. rewrite length_insert. apply H2.
  - done.
  - intros r Hr Ha. apply aborted_abort in Ha. by apply H4.
Qed.

Lemma wf_start_request h hk s :
  hooks s !! h = Some hk → wf s → wf (start_request h hk s).
Proof.
  intros Hh Hwf.
  assert (ref_of s h = abortControllerRef hk) as Hrefh
    by (unfold ref_of; by rewrite Hh).
  set (s1 := match abortControllerRef hk with Some c => abort c s | None => s end).
  assert (wf s1) as [H1 H2 H3 H4]
    by (subst s1; destruct (abortControllerRef hk); auto using wf_abort).
  assert (hooks s1 = hooks s ∧ pending s1 = pending s) as [Hhs Hps]
    by (subst s1; by destruct (abortControllerRef hk)).
  assert (∀ c, abortControllerRef hk = Some c → aborted s1 c = true) as Hab.
  { intros c Hc. subst s1. rewrite Hc. unfold aborted, abort; simpl.
    rewrite list_lookup_insert_eq; [done|].
    apply (wf_ref s Hwf h). by rewrite Hrefh. }
  assert (∀ i, ref_of (start_request h hk s) i =
    if decide (h = i) then Some (length (controllers s1)) else ref_of s1 i) as Href.
  { intros i. unfold start_request. fold s1.
    rewrite ref_of_call_fetcher, ref_of_setError, ref_of_setLoading, ref_of_setRef.
    case_decide as E; [subst i|done].
    change (hooks (newAbortController s1)) with (hooks s1). by rewrite Hhs, Hh. }
  assert (controllers (start_request h hk s) = controllers s1 ++ [false]) as Hc
    by done.
  assert (pending (start_request h hk s) =
    pending s1 ++ [mkRequest h (key hk) (length (controllers s1))]) as Hp
    by done.
  split.
  - intros r. rewrite Hc, Hp, length_app. simpl.
    intros [Hr| ->%list_elem_of_singleton]%elem_of_app; [|simpl; lia].
    apply H1 in Hr. lia.
  - intros i c. rewrite Href, Hc, length_app. simpl. case_decide.
    + intros [= <-]. lia.
    + intros Hr%H2. lia.
  - rewrite Hp, fmap_app. apply NoDup_app. split_and!; [done| |apply NoDup_singleton].
    intros c (r & -> & Hr%H1)%list_elem_of_fmap. simpl.
    intros Hc'%list_elem_of_singleton. lia.
  - intros r. rewrite Hp, Href.
    intros [Hr| ->%list_elem_of_singleton]%elem_of_app; simpl.
    + intros Ha. assert (aborted s1 (req_signal r) = false) as Ha1.
      { pose proof (H1 r Hr). unfold aborted in *. rewrite Hc in Ha.
        by rewrite lookup_app_l in Ha. }
      pose proof (H4 r Hr Ha1) as Hlive. case_decide as E; [|done].
      subst h. exfalso.
      assert (ref_of s1 (req_hook r) = abortControllerRef hk) as E
        by (unfold ref_of; by rewrite Hhs, Hh).
      rewrite E in Hlive. apply Hab in Hlive. congruence.
    + by rewrite decide_True.
Qed.

Lemma wf_step ev s : wf s → wf (step ev s).
Proof.
  intros Hwf. destruct ev as [k|h k|h now|h|c o now|h]; simpl.
  - apply (wf_same s); [done| |done|done].
    intros i. unfold with_hooks, ref_of; simpl.
    destruct (decide (i < length (hooks s))).
    + by rewrite lookup_app_l.
    + rewrite (lookup_ge_None_2 (hooks s)) by lia.
      rewrite lookup_app_r by lia.
      by destruct (i - length (hooks s)) as [|[|?]].
  - apply (wf_same s); [done|apply ref_of_setKey|done|done].
  - unfold fetchData. destruct (hooks s !! h) as [hk|] eqn:Hh; [|done].
    destruct (cache s !! key hk) as [e|]; [destruct (is_fresh now e)|];
      try by apply wf_start_request.
    apply (wf_same s); [done| |done|done].
    intros i. by rewrite ref_of_setLoading, ref_of_setData.
  - unfold cleanup. destruct (hooks s !! h) as [hk|]; [|done].
    destruct (abortControllerRef hk); auto using wf_abort.
  - destruct (take_request c (pending s)) as [[r rest]|] eqn:Ht; [|done].
    apply take_request_sublist in Ht as (_ & _ & Hsub).
    apply (wf_same s); [done| | |].
    + intros i. by rewrite ref_of_resume.
    + by rewrite (proj1 (resume_fields _ _ _ _)).
    + by rewrite (proj2 (resume_fields _ _ _ _)).
  - unfold invalidateCache. destruct (hooks s !! h); [|done].
    by apply (wf_same s).
Qed.

Lemma wf_init : wf init.
Proof.
  split; simpl; [by intros r ?%elem_of_nil|done|constructor|by intros r ?%elem_of_nil].
Qed.

Lemma wf_run evs : wf (run evs init).
Proof.
  induction evs as [|ev evs IH] using rev_ind; [apply wf_init|].
  rewrite run_snoc. by apply wf_step.
Qed.

(** Among calls with distinct signals, those with one given signal are at
    most one. *)
Lemma at_most_one_with_signal (l : list Request) (c : nat) :
  NoDup (req_signal <$> l) →
  (∀ r, r ∈ l → req_signal r = c) →
  (length l ≤ 1)%nat.
Proof.
  destruct l as [|x [|y l]]; simpl; [lia|lia|].
  intros Hnd Hall. exfalso.
  apply NoDup_cons in Hnd as [Hx _]. apply Hx.
  rewrite (Hall x), <- (Hall y); [left|right; left|left].
Qed.

Lemma in_flight_of_hook_bound s h : wf s → (length (in_flight_of_hook s h) ≤ 1)%nat.
Proof.
  intros [H1 H2 H3 H4].
  destruct (ref_of s h) as [c|] eqn:Href.
  - apply (at_most_one_with_signal _ c).
    + eapply sublist_NoDup; [exact H3|]. apply fmap_sublist.
      unfold in_flight_of_hook, in_flight.
      etrans; apply sublist_filter.
    + intros r (Hh & (Ha & Hr)%list_elem_of_filter)%list_elem_of_filter.
      pose proof (H4 r Hr Ha) as E. rewrite Hh, Href in E. congruence.
  - destruct (in_flight_of_hook s h) as [|r l] eqn:E; simpl; [lia|].
    assert (r ∈ in_flight_of_hook s h) as Hr by (rewrite E; left).
    apply list_elem_of_filter in Hr as (Hh & (Ha & Hr)%list_elem_of_filter).
    pose proof (H4 r Hr Ha) as E'. rewrite Hh, Href in E'. done.
Qed.

(** What [fetchData] does when it calls the fetcher. *)
Lemma fetchData_calls_fetcher h now s r :
  pending (fetchData h now s) = pending s ++ [r] →
  req_hook r = h ∧
  req_signal r = length (controllers s) ∧
  aborted (fetchData h now s) (req_signal r) = false.
Proof.
  assert (pending s = pending s ++ [r] → False) as Hno.
  { intros E%(f_equal length). rewrite length_app in E. simpl in E. lia. }
  unfold fetchData. destruct (hooks s !! h) as [hk|]; [|by intros ?%Hno].
  assert (pending (start_request h hk s) = pending s ++ [r] →
    req_hook r = h ∧ req_signal r = length (controllers s) ∧
    aborted (start_request h hk s) (req_signal r) = false) as Hmiss.
  { destruct (start_request_fields h hk s) as (_ & _ & Hp & Hc).
    rewrite Hp. intros [_ <-]%app_inj_tail. simpl. split_and!; [done..|].
    unfold aborted. rewrite Hc.
    destruct (abortControllerRef hk) as [c|].
    - rewrite <- (length_insert (controllers s) c true).
      by rewrite list_lookup_middle.
    - by rewrite list_lookup_middle. }
  destruct (cache s !! key hk) as [e|]; [destruct (is_fresh now e)|]; done.
Qed.

(** *** Refs of different hooks *)

Lemma ref_of_start_request h hk s i :
  hooks s !! h = Some hk →
  ref_of (start_request h hk s) i =
  if decide (h = i) then Some (length (controllers s)) else ref_of s i.
Proof.
  intros Hh. unfold start_request.
  rewrite ref_of_call_fetcher, ref_of_setError, ref_of_setLoading, ref_of_setRef.
  destruct (abortControllerRef hk) as [c|];
    change (hooks (newAbortController ?s0)) with (hooks s0);
    change (ref_of (newAbortController ?s0) i) with (ref_of s0 i);
    simpl; rewrite ?length_insert; case_decide; subst; by rewrite ?Hh.
Qed.

(** A step changes the ref of at most one hook, and then to the controller
    created by that step. *)
Lemma ref_of_step ev s :
  ∃ changed : option nat, ∀ i,
    ref_of (step ev s) i =
    if decide (changed = Some i) then Some (length (controllers s))
    else ref_of s i.
Proof.
  destruct ev as [k|h k|h now|h|c o now|h]; cbn [step].
  - exists None. intros i. rewrite decide_False by done.
    unfold with_hooks, ref_of; simpl.
    destruct (decide (i < length (hooks s))).
    + by rewrite lookup_app_l.
    + rewrite (lookup_ge_None_2 (hooks s)) by lia.
      rewrite lookup_app_r by lia.
      by destruct (i - length (hooks s)) as [|[|?]].
  - exists None. intros i. rewrite decide_False by done. apply ref_of_setKey.
  - unfold fetchData. destruct (hooks s !! h) as [hk|] eqn:Hh;
      [|exists None; intros i; by rewrite decide_False].
    assert (∃ changed : option nat, ∀ i,
      ref_of (start_request h hk s) i =
      if decide (changed = Some i) then Some (length (controllers s))
      else ref_of s i) as Hmiss.
    { exists (Some h). intros i. rewrite ref_of_start_request by done.
      destruct (decide (h = i)) as [->|Hne].
      - by rewrite decide_True.
      - rewrite decide_False; [done|]. by intros [= ?]. }
    destruct (cache s !! key hk) as [e|]; [destruct (is_fresh now e)|]; try done.
    exists None. intros i. rewrite decide_False by done.
    by rewrite ref_of_setLoading, ref_of_setData.
  - exists None. intros i. rewrite decide_False by done.
    unfold cleanup. destruct (hooks s !! h) as [hk|]; [|done].
    by destruct (abortControllerRef hk).
  - exists None. intros i. rewrite decide_False by done.
    destruct (take_request c (pending s)) as [[r rest]|]; [|done].
    by rewrite ref_of_resume.
  - exists None. intros i. rewrite decide_False by done.
    unfold invalidateCache. by destruct (hooks s !! h).
Qed.

(** In every state the event loop reaches, no two hooks hold the same
    controller in their refs. *)
Lemma refs_distinct evs h1 h2 c :
  ref_of (run evs init) h1 = Some c →
  ref_of (run evs init) h2 = Some c →
  h1 = h2.
Proof.
  revert h1 h2 c. induction evs as [|ev evs IH] using rev_ind; intros h1 h2 c.
  - change (ref_of (run [] init) ?i) with (@nil Hook !! i ≫= abortControllerRef).
    by rewrite lookup_nil.
  - rewrite run_snoc. pose proof (wf_run evs) as Hwf.
    destruct (ref_of_step ev (run evs init)) as [changed Href].
    rewrite !Href.
    destruct (decide (changed = Some h1)) as [E1|E1],
             (decide (changed = Some h2)) as [E2|E2].
    + congruence.
    + intros [= <-] H2. apply (wf_ref _ Hwf) in H2. lia.
    + intros H1 [= <-]. apply (wf_ref _ Hwf) in H1. lia.
    + apply IH.
Qed.

Lemma aborted_abort_other c0 c s :
  c0 ≠ c → aborted (abort c0 s) c = aborted s c.
Proof.
  intros Hne. unfold aborted, abort; simpl.
  by rewrite list_lookup_insert_ne.
Qed.

(** Neither the cleanup nor a read of one hook takes a fetch of another hook
    out of the fetches in flight. *)
Lemma others_stay_in_flight evs h' now r :
  let s := run evs init in
  r ∈ in_flight s → req_hook r ≠ h' →
  r ∈ in_flight (fetchData h' now s) ∧ r ∈ in_flight (cleanup h' s).
Proof.
  intros s (Ha & Hr)%list_elem_of_filter Hne.
  pose proof (wf_run evs) as Hwf. fold s in Hwf.
  assert (∀ hk c0, hooks s !! h' = Some hk → abortControllerRef hk = Some c0 →
            c0 ≠ req_signal r) as Hother.
  { intros hk c0 Hh Hc0 ->. apply Hne. symmetry.
    apply (refs_distinct evs h' (req_hook r) (req_signal r)).
    - fold s. unfold ref_of. by rewrite Hh.
    - by apply (wf_live s Hwf). }
  assert (∀ hk, hooks s !! h' = Some hk →
            aborted (match abortControllerRef hk with
                     | Some c0 => abort c0 s
                     | None => s
                     end) (req_signal r) = false) as Hab.
  { intros hk Hh. destruct (abortControllerRef hk) as [c0|] eqn:E; [|done].
    rewrite aborted_abort_other; [done|]. by eapply Hother. }
  split.
  - unfold fetchData. destruct (hooks s !! h') as [hk|] eqn:Hh;
      [|by apply list_elem_of_filter].
    assert (r ∈ in_flight (start_request h' hk s)) as Hmiss.
    { destruct (start_request_fields h' hk s) as (_ & _ & Hp & Hc).
      apply list_elem_of_filter. split; [|rewrite Hp; apply elem_of_app; by left].
      specialize (Hab hk eq_refl). unfold aborted in *. rewrite Hc.
      pose proof (wf_signal s Hwf r Hr) as Hlt.
      rewrite lookup_app_l; [|destruct (abortControllerRef hk);
                               rewrite ?length_insert; lia].
      by destruct (abortControllerRef hk). }
    destruct (cache s !! key hk) as [e|]; [destruct (is_fresh now e)|]; try done.
    by apply list_elem_of_filter.
  - unfold cleanup. destruct (hooks s !! h') as [hk|] eqn:Hh;
      [|by apply list_elem_of_filter].
    specialize (Hab hk eq_refl).
    destruct (abortControllerRef hk) as [c0|]; by apply list_elem_of_filter.
Qed.

(** *** One fetch in flight *)

(** C4, as stated, fails: two components that use the hook with the same key
    each keep their own [abortControllerRef], so the second fetch does not
    cancel the first and two fetches for ['dashboard'] are in flight. *)
Lemma C4_counterexample :
  in_flight_for_key Scenarios.two_consumers "dashboard" =
    [mkRequest 0 "dashboard" 0; mkRequest 1 "dashboard" 1] ∧
  ¬ (length (in_flight_for_key Scenarios.two_consumers "dashboard") ≤ 1)%nat.
Proof. split; [vm_compute; reflexivity|]. vm_compute. lia. Qed.

(** C4, as the code has it. In every state the event loop reaches, each
    consumer (hook instance) has at most one fetch in flight; when
    [fetchData] of a consumer calls the fetcher, that call is the consumer's
    only fetch in flight afterwards: every earlier call of the same consumer
    that is still awaited has had its controller aborted.  Consumers do not
    cancel each other's fetches: a fetch in flight of another consumer,
    whatever its key, is still in flight after this consumer's [fetchData]
    and after this consumer's cleanup. *)
Theorem C4_one_fetch_in_flight_per_consumer (evs : list Event) (h : nat) :
  let s := run evs init in
  (length (in_flight_of_hook s h) ≤ 1)%nat ∧
  (∀ now r,
     pending (fetchData h now s) = pending s ++ [r] →
     in_flight_of_hook (fetchData h now s) h = [r] ∧
     ∀ r0, r0 ∈ pending s → req_hook r0 = h →
           aborted (fetchData h now s) (req_signal r0) = true) ∧
  (∀ now r,
     r ∈ in_flight s → req_hook r ≠ h →
     r ∈ in_flight (fetchData h now s) ∧
     r ∈ in_flight (step (Cleanup h) s)).
Proof.
  intros s. split_and!; [apply in_flight_of_hook_bound, wf_run| |].
  2: { intros now r Hr Hne. by apply (others_stay_in_flight evs h now r). }
  intros now r Hp.
  destruct (fetchData_calls_fetcher _ _ _ _ Hp) as (Hh & Hsig & Ha).
  assert (wf (fetchData h now s)) as Hwf.
  { change (fetchData h now s) with (step (Effect h now) s).
    subst s. rewrite <- run_snoc. apply wf_run. }
  assert (r ∈ in_flight_of_hook (fetchData h now s) h) as Hr.
  { apply list_elem_of_filter. split; [done|].
    apply list_elem_of_filter. split; [done|].
    rewrite Hp. apply elem_of_app. right. left. }
  assert (in_flight_of_hook (fetchData h now s) h = [r]) as Hone.
  { pose proof (in_flight_of_hook_bound _ h Hwf) as Hlen.
    destruct (in_flight_of_hook (fetchData h now s) h) as [|x [|y l]];
      simpl in Hlen; [by apply elem_of_nil in Hr| |lia].
    by apply list_elem_of_singleton in Hr as ->. }
  split; [done|].
  intros r0 Hr0 Hh0.
  destruct (aborted (fetchData h now s) (req_signal r0)) eqn:Ha0; [done|].
  assert (r0 ∈ in_flight_of_hook (fetchData h now s) h) as Hin.
  { apply list_elem_of_filter. split; [done|].
    apply list_elem_of_filter. split; [done|].
    rewrite Hp. apply elem_of_app. by left. }
  rewrite Hone in Hin. apply list_elem_of_singleton in Hin as ->.
  pose proof (wf_signal s (wf_run evs) r Hr0). lia.
Qed.

(** One consumer replaces its own fetch; with two consumers on the key
    ['dashboard'], the fetch of consumer 0 is still in flight after consumer
    1 has read the key again and after consumer 1 has been cleaned up. *)
Lemma C4_witness :
  in_flight_of_hook
    (fetchData 0 1500 (run [Mount "dashboard"; Effect 0 1000] init)) 0 =
    [mkRequest 0 "dashboard" 1] ∧
  mkRequest 0 "dashboard" 0 ∈ in_flight (fetchData 1 500 Scenarios.two_consumers) ∧
  mkRequest 0 "dashboard" 0 ∈ in_flight (step (Cleanup 1) Scenarios.two_consumers).
Proof.
  split.
  - apply (proj1 (proj2 (C4_one_fetch_in_flight_per_consumer
                           [Mount "dashboard"; Effect 0 1000] 0))).
    reflexivity.
  - apply (proj2 (proj2 (C4_one_fetch_in_flight_per_consumer
                           [Mount "dashboard"; Mount "dashboard";
                            Effect 0 0; Effect 1 0] 1)) 500%Z).
    + left.
    + done.
Defined.

(** *** Who writes the cache *)

Lemma step_cache ev s :
  cache (step ev s) = cache s ∨
  (∃ k, cache (step ev s) = delete k (cache s)) ∨
  (∃ c v now r rest,
     ev = Settle c (Resolved v) now ∧
     take_request c (pending s) = Some (r, rest) ∧
     cache (step ev s) = <[req_key r := CacheEntry.mk v now]> (cache s)).
Proof.
  destruct ev as [k|h k|h now|h|c o now|h]; simpl; auto.
  - left. unfold fetchData. destruct (hooks s !! h) as [hk|]; [|done].
    destruct (cache s !! key hk) as [e|]; [destruct (is_fresh now e)|];
      first [done | apply start_request_fields].
  - left. unfold cleanup. destruct (hooks s !! h) as [hk|]; [|done].
    by destruct (abortControllerRef hk).
  - destruct (take_request c (pending s)) as [[r rest]|] eqn:Ht; [|by left].
    destruct o as [v|err].
    + right; right. by exists c, v, now, r, rest.
    + left. by rewrite resume_rejected_cache.
  - unfold invalidateCache. destruct (hooks s !! h) as [hk|]; [|by left].
    right; left. by exists (key hk).
Qed.

(** C9. A fetch that is rejected, with [AbortError] or with anything else,
    leaves the cache map as it was; a step of the event loop changes the map
    only by deleting a key (invalidation) or by storing the result of a
    fetch that resolved; and so every entry of the cache, in every state the
    event loop reaches, holds the value and the completion time of a fetch
    for its key that resolved. *)
Theorem C9_cache_holds_only_results_of_resolved_fetches :
  (∀ s c err now, cache (step (Settle c (Rejected err) now) s) = cache s) ∧
  (∀ ev s k e,
     cache (step ev s) !! k = Some e →
     cache s !! k = Some e ∨
     ∃ c r rest,
       ev = Settle c (Resolved (CacheEntry.data e)) (CacheEntry.timestamp e) ∧
       take_request c (pending s) = Some (r, rest) ∧ req_key r = k) ∧
  (∀ evs k e,
     cache (run evs init) !! k = Some e →
     ∃ pre c post r rest,
       evs = pre ++ Settle c (Resolved (CacheEntry.data e))
                      (CacheEntry.timestamp e) :: post ∧
       take_request c (pending (run pre init)) = Some (r, rest) ∧
       req_key r = k).
Proof.
  assert (∀ ev s k e,
     cache (step ev s) !! k = Some e →
     cache s !! k = Some e ∨
     ∃ c r rest,
       ev = Settle c (Resolved (CacheEntry.data e)) (CacheEntry.timestamp e) ∧
       take_request c (pending s) = Some (r, rest) ∧ req_key r = k) as Hstep.
  { intros ev s k e.
    destruct (step_cache ev s) as [->|[[k' ->]|(c & v & now & r & rest & -> & Ht & ->)]].
    - by left.
    - intros [_ ?]%lookup_delete_Some. by left.
    - intros [[<- <-]|[_ ?]]%lookup_insert_Some; [|by left].
      right. by exists c, r, rest. }
  split_and!; [|exact Hstep|].
  - intros s c err now. simpl.
    destruct (take_request c (pending s)) as [[r rest]|]; [|done].
    by rewrite resume_rejected_cache.
  - induction evs as [|ev evs IH] using rev_ind; intros k e.
    + change (cache (run [] init)) with (∅ : gmap string CacheEntry.t).
      by rewrite lookup_empty.
    + rewrite run_snoc.
      intros [Hold|(c & r & rest & -> & Ht & Hk)]%Hstep.
      * destruct (IH _ _ Hold) as (pre & c & post & r & rest & -> & Ht & Hk).
        exists pre, c, (post ++ [ev]), r, rest.
        by rewrite <- app_assoc.
      * by exists evs, c, [], r, rest.
Qed.

Lemma C9_witness :
  ∃ pre c post r rest,
    [Mount "dashboard"; Effect 0 0; Settle 0 (Resolved Scenarios.summary) 0] =
      pre ++ Settle c (Resolved Scenarios.summary) 0 :: post ∧
    take_request c (pending (run pre init)) = Some (r, rest) ∧
    req_key r = "dashboard".
Proof.
  apply (proj2 (proj2 C9_cache_holds_only_results_of_resolved_fetches)
           [Mount "dashboard"; Effect 0 0; Settle 0 (Resolved Scenarios.summary) 0]
           "dashboard" (CacheEntry.mk Scenarios.summary 0)).
  vm_compute. reflexivity.
Defined.

End CacheFacts.

(** ** Properties of the provider *)

Module StudyFacts.
Import Js Study.

Lemma study_run_snoc evs ev w : run (evs ++ [ev]) w = step ev (run evs w).
Proof. unfold run. by rewrite foldl_app. Qed.

(** *** The rate-limited refresh *)

(** Inside the window the call returns at line 98 and nothing changes. *)
Lemma fetchDashboardAndTimetables_rejected seen now w :
  (now - seen < 2000)%Z → fetchDashboardAndTimetables seen now w = w.
Proof.
  intros H. unfold fetchDashboardAndTimetables.
  by rewrite bool_decide_eq_true_2.
Qed.

(** Outside the window the timestamp is set and both entries are deleted. *)
Lemma fetchDashboardAndTimetables_accepted seen now w :
  (2000 ≤ now - seen)%Z →
  let w' := fetchDashboardAndTimetables seen now w in
  lastFetch w' = now ∧
  cached w' "dashboard" = None ∧
  cached w' "timetables" = None ∧
  (∀ k, k ≠ "dashboard" → k ≠ "timetables" → cached w' k = cached w k).
Proof.
  intros H. unfold fetchDashboardAndTimetables.
  rewrite bool_decide_eq_false_2 by lia.
  unfold cached; simpl. split_and!; [done| | |].
  - rewrite lookup_delete_ne by done. apply lookup_delete_eq.
  - apply lookup_delete_eq.
  - intros k H1 H2. by rewrite !lookup_delete_ne.
Qed.

(** A call made through the callback of the latest render sees the committed
    timestamp: within 2000 ms of the last accepted call it is a no-op, later
    it is accepted. *)
Lemma refresh_through_current_callback now w :
  ((now - lastFetch w < 2000)%Z →
   step (CallFetchDashboardAndTimetables now) w = w) ∧
  ((2000 ≤ now - lastFetch w)%Z →
   lastFetch (step (CallFetchDashboardAndTimetables now) w) = now ∧
   cached (step (CallFetchDashboardAndTimetables now) w) "dashboard" = None ∧
   cached (step (CallFetchDashboardAndTimetables now) w) "timetables" = None).
Proof.
  split; intros H; simpl.
  - by apply fetchDashboardAndTimetables_rejected.
  - destruct (fetchDashboardAndTimetables_accepted (lastFetch w) now w H)
      as (? & ? & ? & _). done.
Qed.

(** The call at line 210 is decided by the timestamp [endSession] was
    created with, whatever the committed one is by then. *)
Lemma refresh_through_suspended_endSession seen v now w :
  (2000 ≤ now - seen)%Z →
  lastFetch (resume (InEndSession_delete seen) (Resolved v) now w) = now.
Proof.
  intros H. simpl.
  by destruct (fetchDashboardAndTimetables_accepted seen now
                 (setIsStudying false (setCurrentSession (λ _, JNull) w)) H).
Qed.

(** C3 on a run of the provider. [endSession] is called while [lastFetch] is
    0 and is awaiting its HTTP calls; a direct call of
    [fetchDashboardAndTimetables] at t = 2100 is accepted and the dashboard
    entry is then filled at t = 2300.  When [endSession] resumes at t = 2500
    it calls the [fetchDashboardAndTimetables] of its own render, which
    compares against 0: the call is accepted 400 ms after the previous
    accepted one, deletes the entry again and moves the timestamp. *)
Theorem C3_stale_callback_is_accepted_inside_the_window :
  lastFetch Scenarios.ending = 2100%Z ∧
  cached Scenarios.ending "dashboard" =
    Some (ApiCache.CacheEntry.mk Scenarios.summary 2300) ∧
  cont <$> awaiting Scenarios.ending !! 0 = Some (InEndSession_delete 0) ∧
  (2500 - lastFetch Scenarios.ending < 2000)%Z ∧
  Scenarios.ended = step (Response 0 (Resolved JNull) 2500) Scenarios.ending ∧
  lastFetch Scenarios.ended = 2500%Z ∧
  cached Scenarios.ended "dashboard" = None.
Proof. vm_compute. done. Qed.

(** *** The first refresh *)

Lemma step_without_refresh ev w :
  may_refresh ev = false →
  (∀ a, a ∈ awaiting w → in_endSession (cont a) = false) →
  lastFetch (step ev w) = lastFetch w ∧
  (∀ a, a ∈ awaiting (step ev w) → in_endSession (cont a) = false).
Proof.
  intros Hev Hw.
  assert (∀ c k w0, awaiting w0 = awaiting w → in_endSession k = false →
    ∀ a, a ∈ awaiting (await c k w0) → in_endSession (cont a) = false) as Hawait.
  { intros c k w0 E Hk a. simpl. rewrite E.
    intros [?| ->%list_elem_of_singleton]%elem_of_app; auto. }
  destruct ev; try done; simpl; try (split; [done|]; by apply Hawait).
  destruct (awaiting w !! i) as [a|] eqn:Ha; [|done].
  assert (in_endSession (cont a) = false) as Hk
    by (eapply Hw, list_elem_of_lookup_2; eauto).
  assert (∀ a', a' ∈ delete i (awaiting w) → in_endSession (cont a') = false)
    as Hrest.
  { intros a' Ha'. apply Hw. eapply elem_of_sublist; [done|apply sublist_delete]. }
  destruct (cont a), o; try done; simpl; try done.
  by destruct (truthy _).
Qed.

Lemma run_without_refresh evs :
  forallb (λ ev, negb (may_refresh ev)) evs = true →
  lastFetch (run evs initial) = 0%Z ∧
  (∀ a, a ∈ awaiting (run evs initial) → in_endSession (cont a) = false).
Proof.
  induction evs as [|ev evs IH] using rev_ind.
  - intros _. split; [done|]. by intros a ?%elem_of_nil.
  - rewrite forallb_app. simpl.
    intros [Hevs [Hev%negb_true_iff _]%andb_true_iff]%andb_true_iff.
    destruct (IH Hevs) as [H0 Hk]. rewrite study_run_snoc.
    destruct (step_without_refresh ev _ Hev Hk) as [-> ?]. done.
Qed.

(** C10. [lastFetch] starts at 0, so from the provider's initial state, after
    any events none of which is a call that reaches the gate, a first call of
    [fetchDashboardAndTimetables] at a time of at least 2000 ms is accepted:
    it records the time and deletes both cache entries. *)
Theorem C10_first_refresh_is_accepted (evs : list Event) (now : Z) :
  forallb (λ ev, negb (may_refresh ev)) evs = true →
  (2000 ≤ now)%Z →
  let w := run evs initial in
  let w' := step (CallFetchDashboardAndTimetables now) w in
  lastFetch initial = 0%Z ∧
  lastFetch w = 0%Z ∧
  lastFetch w' = now ∧
  cached w' "dashboard" = None ∧
  cached w' "timetables" = None.
Proof.
  intros Hevs Hnow w w'. destruct (run_without_refresh evs Hevs) as [H0 _].
  fold w in H0. split_and!; [done|done|..];
    apply (refresh_through_current_callback now w); lia.
Qed.

Lemma C10_witness :
  lastFetch (step (CallFetchDashboardAndTimetables 2000)
               (run (mount 0) initial)) = 2000%Z ∧
  cached (step (CallFetchDashboardAndTimetables 2000)
            (run (mount 0) initial)) "dashboard" = None.
Proof.
  destruct (C10_first_refresh_is_accepted (mount 0) 2000)
    as (_ & _ & H1 & H2 & _); [reflexivity|lia|].
  split; [exact H1|exact H2].
Defined.

(** *** Ending a session *)

(** C6. A call of [endSession] changes no state before its first [await],
    and none when its POST succeeds (it goes on to the DELETE).  When the
    POST of the completed session (a) or the DELETE of the current state (b)
    fails, the call ends in its [catch]: [currentSession] and [isStudying]
    keep their values, [lastFetch] and the cache system are untouched and no
    further HTTP call is made (no DELETE after a failed POST, no refresh and
    no read of today's subjects), and the only effect is one line on the
    console. *)
Theorem C6_failed_endSession_changes_nothing
    (w : World) (i : nat) (a : Awaiting) (err : JsError) (now : Z) :
  awaiting w !! i = Some a →
  in_endSession (cont a) = true →
  (∀ actualTime notes targetTime t w0,
     let w1 := endSession actualTime notes targetTime t w0 in
     currentSession w1 = currentSession w0 ∧ isStudying w1 = isStudying w0 ∧
     lastFetch w1 = lastFetch w0 ∧ api w1 = api w0) ∧
  (∀ seen v t w0,
     let w1 := resume (InEndSession_post seen) (Resolved v) t w0 in
     currentSession w1 = currentSession w0 ∧ isStudying w1 = isStudying w0 ∧
     lastFetch w1 = lastFetch w0 ∧ api w1 = api w0) ∧
  let w' := step (Response i (Rejected err) now) w in
  currentSession w' = currentSession w ∧
  isStudying w' = isStudying w ∧
  studyData w' = studyData w ∧
  lastFetch w' = lastFetch w ∧
  api w' = api w ∧
  awaiting w' = delete i (awaiting w) ∧
  console w' = console w ++ [("Failed to end session:", err)].
Proof.
  intros Ha Hk. split; [|split; [done|]].
  - intros actualTime notes targetTime t w0. unfold endSession.
    by destruct (member (currentSession w0) "currentSubject"),
                (member (currentSession w0) "startTime").
  - simpl. rewrite Ha. by destruct (cont a).
Qed.

Lemma C6_witness :
  let w' := step (Response 0 (Rejected Scenarios.networkError) 2500)
              Scenarios.ending in
  currentSession w' = Scenarios.session ∧
  isStudying w' = true ∧
  awaiting w' = [].
Proof.
  destruct (C6_failed_endSession_changes_nothing Scenarios.ending 0
    (mkAwaiting (mkCall "DELETE" "/api/study/state" JUndefined)
       (InEndSession_delete 0))
    Scenarios.networkError 2500) as (_ & _ & H1 & H2 & _ & _ & _ & H3 & _);
    [reflexivity|reflexivity|].
  split_and!; [exact H1|exact H2|exact H3].
Defined.

(** *** Failing reads *)

Lemma assoc_assoc_set k v props : assoc k (assoc_set k v props) = Some v.
Proof.
  induction props as [|[k' v'] props IH]; simpl.
  - by rewrite String.eqb_refl.
  - destruct (String.eqb k k') eqn:E; simpl.
    + by rewrite String.eqb_refl.
    + by rewrite E.
Qed.

Lemma assoc_assoc_set_ne k k' v props :
  k' ≠ k → assoc k' (assoc_set k v props) = assoc k' props.
Proof.
  intros Hne. induction props as [|[k0 v0] props IH]; simpl.
  - by rewrite (proj2 (String.eqb_neq k' k)).
  - destruct (String.eqb k k0) eqn:E; simpl.
    + apply String.eqb_eq in E as <-.
      by rewrite (proj2 (String.eqb_neq k' k)).
    + by rewrite IH.
Qed.

(** [studyData] is an object in every state the provider reaches. *)
Lemma studyData_is_object evs :
  ∃ props, studyData (run evs initial) = JObj props.
Proof.
  induction evs as [|ev evs [props IH]] using rev_ind; [by eexists|].
  rewrite study_run_snoc. revert IH. generalize (run evs initial) as w.
  intros w Hw. destruct ev; cbn [step]; try by eexists.
  - unfold fetchDashboardAndTimetables. case_bool_decide; by eexists.
  - unfold endSession.
    destruct (member (currentSession w) "currentSubject"),
             (member (currentSession w) "startTime"); by eexists.
  - destruct (awaiting w !! i) as [a|]; [|by eexists].
    destruct (cont a), o; simpl; try by eexists.
    + destruct (truthy _); by eexists.
    + unfold fetchDashboardAndTimetables. case_bool_decide; by eexists.
Qed.

(** C7. In every state the provider reaches, a failing
    [fetchCompletedSubjects] replaces the [completedSubjects] field of
    [studyData] by the empty array and keeps every other field.  Every other
    failing read keeps what was held: a failing [fetchNotes] leaves
    [studyData] (its [notes] included) as it was, a failing
    [fetchCurrentSession] leaves the session state and [studyData] as they
    were, a failing [fetchSessionStats] changes no state and returns [null],
    and a failing cached read leaves the hook's [data] as it was. *)
Theorem C7_only_completed_subjects_are_reset_on_failure
    (evs : list Event) (err : JsError) (now : Z) :
  let w := run evs initial in
  (let w' := resume InFetchCompletedSubjects (Rejected err) now w in
   member (studyData w') "completedSubjects" = Some (JArr []) ∧
   (∀ p, p ≠ "completedSubjects" →
         member (studyData w') p = member (studyData w) p) ∧
   currentSession w' = currentSession w ∧ isStudying w' = isStudying w) ∧
  (let w' := resume InFetchNotes (Rejected err) now w in
   studyData w' = studyData w ∧
   currentSession w' = currentSession w ∧ isStudying w' = isStudying w) ∧
  (let w' := resume InFetchCurrentSession (Rejected err) now w in
   studyData w' = studyData w ∧
   currentSession w' = currentSession w ∧ isStudying w' = isStudying w) ∧
  (let w' := resume InFetchSessionStats (Rejected err) now w in
   studyData w' = studyData w ∧
   currentSession w' = currentSession w ∧ isStudying w' = isStudying w ∧
   returned w' = returned w ++ [JNull]) ∧
  (∀ s r h,
     ApiCache.data <$> ApiCache.hooks (ApiCache.resume r (Rejected err) now s) !! h =
     ApiCache.data <$> ApiCache.hooks s !! h).
Proof.
  intros w. destruct (studyData_is_object evs) as [props Hsd]. fold w in Hsd.
  split_and!; [|done..|].
  - simpl. rewrite Hsd. simpl. split_and!; [|intros p Hp|done..].
    + by rewrite assoc_assoc_set.
    + by rewrite assoc_assoc_set_ne.
  - intros s r h. apply CacheFacts.resume_rejected_data.
Qed.

(** The provider shows one completed subject; the read of today's subjects
    fails and the list becomes empty, while a failing read of the notes
    changes nothing. *)
Lemma C7_witness :
  member (studyData Scenarios.studying) "completedSubjects" =
    Some (JArr [JStr "Physics"]) ∧
  member (studyData (resume InFetchCompletedSubjects
                       (Rejected Scenarios.networkError) 70 Scenarios.studying))
    "completedSubjects" = Some (JArr []) ∧
  studyData (resume InFetchNotes (Rejected Scenarios.networkError) 70
               Scenarios.studying) = studyData Scenarios.studying.
Proof.
  destruct (C7_only_completed_subjects_are_reset_on_failure
    (mount 0 ++
     [Response 0 (Resolved Scenarios.session) 50;
      Response 0 (Resolved (JArr [JStr "Physics"])) 60])
    Scenarios.networkError 70) as ((H1 & _) & (H2 & _) & _).
  split_and!; [reflexivity|exact H1|exact H2].
Defined.

(** *** The loading flag of the notes *)





End StudyFacts.

(** ** Further properties of the fetch cache *)

Module CacheExtras.
Import Js ApiCache CacheObs.

Lemma hooks_start_request h hk s i :
  hooks s !! h = Some hk →
  hooks (start_request h hk s) !! i =
  if decide (h = i)
  then Some (mkHook (key hk) (data hk) true None (Some (length (controllers s))))
  else hooks s !! i.
Proof.
  intros Hh. unfold start_request.
  change (hooks (call_fetcher ?r ?s0)) with (hooks s0).
  rewrite CacheFacts.lookup_setError, CacheFacts.lookup_setLoading,
    CacheFacts.lookup_setRef.
  destruct (abortControllerRef hk) as [c|]; simpl;
    rewrite ?length_insert; case_decide; subst; by rewrite ?Hh.
Qed.

(** X1. A read of a key that has no entry, or whose entry is at least five
    minutes old (exactly five minutes included), calls the fetcher with the
    signal of a new controller that is not aborted; the hook shows
    [loading = true] and [error = null] and keeps its [data]; the stale
    entry stays in the cache. *)
Theorem X1_missing_or_expired_entry_is_fetched
    (s : Sys) (h : nat) (hk : Hook) (now : Z) :
  hooks s !! h = Some hk →
  (cache s !! key hk = None ∨
   ∃ e, cache s !! key hk = Some e ∧
        (5 * 60 * 1000 ≤ now - CacheEntry.timestamp e)%Z) →
  let s' := fetchData h now s in
  let c := length (controllers s) in
  pending s' = pending s ++ [mkRequest h (key hk) c] ∧
  aborted s' c = false ∧
  hooks s' !! h = Some (mkHook (key hk) (data hk) true None (Some c)) ∧
  cache s' = cache s.
Proof.
  intros Hh Hc s' c.
  assert (s' = start_request h hk s) as ->.
  { subst s'. unfold fetchData. rewrite Hh.
    destruct Hc as [->|(e & -> & Hage)]; [done|].
    unfold is_fresh, CACHE_DURATION. by rewrite bool_decide_eq_false_2 by lia. }
  destruct (CacheFacts.start_request_fields h hk s) as (Hca & _ & Hp & Hco).
  split_and!; [done| |by rewrite hooks_start_request, decide_True|done].
  unfold aborted. rewrite Hco. subst c.
  destruct (abortControllerRef hk) as [c0|].
  - rewrite <- (length_insert (controllers s) c0 true).
    by rewrite list_lookup_middle.
  - by rewrite list_lookup_middle.
Qed.

Lemma X1_witness :
  pending (fetchData 0 300000 Scenarios.warm) = [mkRequest 0 "dashboard" 1].
Proof.
  apply (X1_missing_or_expired_entry_is_fetched Scenarios.warm 0
           (mkHook "dashboard" Scenarios.summary false None (Some 0)) 300000).
  - reflexivity.
  - right. exists (CacheEntry.mk Scenarios.summary 0).
    split; [vm_compute; reflexivity|simpl; lia].
Defined.

(** X2. When an awaited fetch resolves, its value is stored, with the time
    of completion, under the key the fetch was started with (whatever key
    its hook has been re-rendered with since), no other key changes, and the
    hook shows the value with [loading = false]; its [error] is left as it
    is.  Nothing of this depends on whether the controller of the fetch has
    been aborted. *)
Theorem X2_resolved_fetch_is_stored_and_shown
    (s : Sys) (c : nat) (r : Request) (rest : list Request) (v : JsVal)
    (now : Z) (hk : Hook) :
  take_request c (pending s) = Some (r, rest) →
  hooks s !! req_hook r = Some hk →
  let s' := step (Settle c (Resolved v) now) s in
  cache s' !! req_key r = Some (CacheEntry.mk v now) ∧
  (∀ k, k ≠ req_key r → cache s' !! k = cache s !! k) ∧
  hooks s' !! req_hook r =
    Some (mkHook (key hk) v false (error hk) (abortControllerRef hk)) ∧
  pending s' = rest ∧
  controllers s' = controllers s.
Proof.
  intros Ht Hh. simpl. rewrite Ht. unfold resume. split_and!; try done.
  - apply lookup_insert_eq.
  - intros k Hk. simpl. by rewrite lookup_insert_ne.
  - rewrite CacheFacts.lookup_setLoading, CacheFacts.lookup_setData.
    rewrite !decide_True by done. simpl. by rewrite Hh.
Qed.

Lemma X2_witness :
  cache (step (Settle 0 (Resolved Scenarios.summary) 1600) Scenarios.superseded)
    !! "dashboard" = Some (CacheEntry.mk Scenarios.summary 1600).
Proof.
  apply (X2_resolved_fetch_is_stored_and_shown Scenarios.superseded 0
           (mkRequest 0 "dashboard" 0) [mkRequest 0 "dashboard" 1]
           Scenarios.summary 1600
           (mkHook "dashboard" JNull true None (Some 1))); reflexivity.
Defined.

(** X3. The cache is shared: after a fetch for a key resolved at time [t0],
    a read of that key by any consumer at a time less than five minutes
    after [t0] shows the value and calls no fetcher. *)
Theorem X3_result_is_served_to_every_consumer
    (s : Sys) (c : nat) (r : Request) (rest : list Request) (v : JsVal)
    (t0 t : Z) (h : nat) (hk : Hook) :
  take_request c (pending s) = Some (r, rest) →
  hooks s !! h = Some hk →
  key hk = req_key r →
  (t - t0 < 5 * 60 * 1000)%Z →
  let s1 := step (Settle c (Resolved v) t0) s in
  let s2 := fetchData h t s1 in
  data <$> hooks s2 !! h = Some v ∧
  loading <$> hooks s2 !! h = Some false ∧
  pending s2 = pending s1 ∧
  controllers s2 = controllers s1.
Proof.
  intros Ht Hh Hk Hage s1 s2.
  assert (cache s1 !! key hk = Some (CacheEntry.mk v t0)) as Hc.
  { subst s1. simpl. rewrite Ht, Hk. unfold resume. apply lookup_insert_eq. }
  assert (∃ hk1, hooks s1 !! h = Some hk1 ∧ key hk1 = key hk) as (hk1 & Hh1 & Hk1).
  { subst s1. simpl. rewrite Ht. unfold resume.
    rewrite CacheFacts.lookup_setLoading, CacheFacts.lookup_setData.
    change (hooks (cache_set ?k ?e ?s0)) with (hooks s0).
    change (hooks (set_pending ?l ?s0)) with (hooks s0).
    rewrite Hh. case_decide; eexists; split; reflexivity. }
  subst s2. unfold fetchData. rewrite Hh1, Hk1, Hc.
  unfold is_fresh, CACHE_DURATION. simpl.
  rewrite bool_decide_eq_true_2 by done.
  rewrite CacheFacts.lookup_setLoading, CacheFacts.lookup_setData, Hh1.
  by rewrite !decide_True by done.
Qed.

Lemma X3_witness :
  data <$> hooks
    (fetchData 1 2000
       (step (Settle 0 (Resolved Scenarios.summary) 1000)
          Scenarios.two_consumers)) !! 1 = Some Scenarios.summary.
Proof.
  apply (X3_result_is_served_to_every_consumer Scenarios.two_consumers 0
           (mkRequest 0 "dashboard" 0) [mkRequest 1 "dashboard" 1]
           Scenarios.summary 1000 2000 1
           (mkHook "dashboard" JNull true None (Some 1)));
    [reflexivity..|lia].
Defined.

(** X4. When an awaited fetch is rejected with an error whose name is not
    [AbortError], the hook shows the error with [loading = false] and keeps
    its [data], one line naming the key is written to the console, and the
    cache is not touched. *)
Theorem X4_failed_fetch_shows_error_and_keeps_data
    (s : Sys) (c : nat) (r : Request) (rest : list Request) (err : JsError)
    (now : Z) (hk : Hook) :
  take_request c (pending s) = Some (r, rest) →
  hooks s !! req_hook r = Some hk →
  name err ≠ "AbortError" →
  let s' := step (Settle c (Rejected err) now) s in
  hooks s' !! req_hook r =
    Some (mkHook (key hk) (data hk) false (Some err) (abortControllerRef hk)) ∧
  console s' = console s ++ [("API Error for " +:+ req_key r +:+ ":", err)] ∧
  cache s' = cache s ∧
  pending s' = rest.
Proof.
  intros Ht Hh Hname. simpl. rewrite Ht. unfold resume.
  rewrite decide_False by done. split_and!; try done.
  rewrite CacheFacts.lookup_setLoading.
  change (hooks (console_error ?m ?e ?s0)) with (hooks s0).
  rewrite CacheFacts.lookup_setError.
  change (hooks (set_pending ?l ?s0)) with (hooks s0).
  rewrite !decide_True by done. by rewrite Hh.
Qed.

Lemma X4_witness :
  hooks (step (Settle 1 (Rejected Scenarios.networkError) 1600)
           Scenarios.superseded) !! 0 =
  Some (mkHook "dashboard" JNull false (Some Scenarios.networkError) (Some 1)).
Proof.
  apply (X4_failed_fetch_shows_error_and_keeps_data Scenarios.superseded 1
           (mkRequest 0 "dashboard" 1) [mkRequest 0 "dashboard" 0]
           Scenarios.networkError 1600
           (mkHook "dashboard" JNull true None (Some 1)));
    [reflexivity|reflexivity|done].
Defined.

Lemma hooks_fetchData_ne h now s i :
  h ≠ i → hooks (fetchData h now s) !! i = hooks s !! i.
Proof.
  intros Hne. unfold fetchData. destruct (hooks s !! h) as [hk|] eqn:Hh; [|done].
  assert (hooks (start_request h hk s) !! i = hooks s !! i) as Hmiss
    by (by rewrite hooks_start_request, decide_False).
  destruct (cache s !! key hk) as [e|]; [destruct (is_fresh now e)|]; try done.
  rewrite CacheFacts.lookup_setLoading, CacheFacts.lookup_setData.
  by rewrite !decide_False.
Qed.

Lemma hooks_resume_ne r o now s i :
  req_hook r ≠ i → hooks (resume r o now s) !! i = hooks s !! i.
Proof.
  intros Hne. unfold resume. rewrite CacheFacts.lookup_setLoading.
  rewrite decide_False by done. destruct o as [v|err].
  - rewrite CacheFacts.lookup_setData. by rewrite decide_False.
  - destruct (decide (name err = "AbortError")); [done|].
    change (hooks (console_error ?m ?e ?s0)) with (hooks s0).
    rewrite CacheFacts.lookup_setError. by rewrite decide_False.
Qed.

(** X5. Consumers share the cache and nothing else: the state of a hook
    ([key], [data], [loading], [error], ref) is changed only by its own
    re-render, its own effect, or the settling of a fetch it started.  The
    mounting, renders, effects and settled fetches of other consumers, every
    cleanup and every invalidation leave it as it is. *)
Theorem X5_consumers_do_not_touch_each_other
    (ev : Event) (s : Sys) (h : nat) (hk : Hook) :
  hooks s !! h = Some hk →
  concerns ev s h = false →
  hooks (step ev s) !! h = Some hk.
Proof.
  intros Hh Hev.
  destruct ev as [k|h' k|h' now|h'|c o now|h']; cbn [step concerns] in *.
  - unfold with_hooks; simpl. rewrite lookup_app_l; [done|].
    by eapply lookup_lt_Some.
  - apply bool_decide_eq_false in Hev.
    rewrite CacheFacts.lookup_setKey. by rewrite decide_False.
  - apply bool_decide_eq_false in Hev. by rewrite hooks_fetchData_ne.
  - unfold cleanup. destruct (hooks s !! h') as [hk'|]; [|done].
    by destruct (abortControllerRef hk').
  - destruct (take_request c (pending s)) as [[r rest]|]; [|done].
    apply bool_decide_eq_false in Hev. by rewrite hooks_resume_ne.
  - unfold invalidateCache. by destruct (hooks s !! h').
Qed.

Lemma X5_witness :
  hooks (step (Settle 0 (Resolved Scenarios.summary) 1000)
           Scenarios.two_consumers) !! 1 =
  Some (mkHook "dashboard" JNull true None (Some 1)).
Proof.
  apply (X5_consumers_do_not_touch_each_other
           (Settle 0 (Resolved Scenarios.summary) 1000)
           Scenarios.two_consumers 1); reflexivity.
Defined.

(** X6. In every state the event loop reaches, once the cleanup of a hook
    has run (its effect is about to re-run, or the component unmounts) the
    hook has no fetch in flight; the cleanup itself changes neither the
    cache, nor any hook's state, nor the list of awaited calls. *)
Theorem X6_cleanup_leaves_no_fetch_in_flight (evs : list Event) (h : nat) :
  let s := run evs init in
  let s' := step (Cleanup h) s in
  in_flight_of_hook s' h = [] ∧
  cache s' = cache s ∧ hooks s' = hooks s ∧ pending s' = pending s.
Proof.
  intros s s'. pose proof (CacheFacts.wf_run evs) as Hwf. fold s in Hwf.
  assert (cache s' = cache s ∧ hooks s' = hooks s ∧ pending s' = pending s)
    as (Hc & Hhs & Hp).
  { subst s'. simpl. unfold cleanup. destruct (hooks s !! h) as [hk|]; [|done].
    by destruct (abortControllerRef hk). }
  split; [|done].
  destruct (in_flight_of_hook s' h) as [|r l] eqn:E; [done|]. exfalso.
  assert (r ∈ in_flight_of_hook s' h) as Hr by (rewrite E; left).
  apply list_elem_of_filter in Hr as (Hrh & (Ha & Hr)%list_elem_of_filter).
  rewrite Hp in Hr. subst s'. simpl in Ha. unfold cleanup in Ha.
  assert (ref_of s h = Some (req_signal r) → False) as Hno.
  { intros Href. unfold ref_of in Href.
    destruct (hooks s !! h) as [hk|]; [|done]. simpl in Href.
    rewrite Href in Ha. unfold aborted, abort in Ha; simpl in Ha.
    rewrite list_lookup_insert_eq in Ha; [done|].
    by apply (wf_signal s Hwf). }
  apply Hno. rewrite <- Hrh. apply (wf_live s Hwf); [done|].
  destruct (hooks s !! h) as [hk|]; [|done].
  destruct (abortControllerRef hk); [|done]. by eapply CacheFacts.aborted_abort.
Qed.

Lemma aborted_step ev s c : aborted s c = true → aborted (step ev s) c = true.
Proof.
  intros Ha.
  assert (∀ c0 s0, aborted s0 c = true → aborted (abort c0 s0) c = true) as Hab.
  { intros c0 s0. unfold aborted, abort; simpl. rewrite list_lookup_insert.
    by case_decide. }
  assert (∀ h hk s0, aborted s0 c = true →
            aborted (start_request h hk s0) c = true) as Hst.
  { intros h hk s0 H0.
    destruct (CacheFacts.start_request_fields h hk s0) as (_ & _ & _ & Hco).
    assert (aborted (match abortControllerRef hk with
                     | Some c0 => abort c0 s0 | None => s0 end) c = true) as H1
      by (destruct (abortControllerRef hk); auto).
    unfold aborted in *. rewrite Hco.
    destruct (abortControllerRef hk) as [c0|]; simpl in H1.
    - destruct (<[c0:=true]> (controllers s0) !! c) eqn:E; [|done].
      by rewrite (lookup_app_l_Some _ _ _ _ E).
    - destruct (controllers s0 !! c) eqn:E; [|done].
      by rewrite (lookup_app_l_Some _ _ _ _ E). }
  destruct ev as [k|h k|h now|h|c0 o now|h]; simpl; try done.
  - unfold fetchData. destruct (hooks s !! h) as [hk|]; [|done].
    destruct (cache s !! key hk) as [e|]; [destruct (is_fresh now e)|]; auto.
  - unfold cleanup. destruct (hooks s !! h) as [hk|]; [|done].
    destruct (abortControllerRef hk); auto.
  - destruct (take_request c0 (pending s)) as [[r rest]|]; [|done].
    unfold aborted. by rewrite (proj1 (CacheFacts.resume_fields _ _ _ _)).
  - unfold invalidateCache. by destruct (hooks s !! h).
Qed.

(** X7. Cancellation is final: a controller that has been aborted stays
    aborted whatever happens afterwards, so a fetch that has left the fetches
    in flight by being cancelled never counts as in flight again. *)
Theorem X7_aborted_stays_aborted (evs : list Event) (s : Sys) (c : nat) :
  aborted s c = true → aborted (run evs s) c = true.
Proof.
  intros Ha. induction evs as [|ev evs IH] using rev_ind; [done|].
  rewrite CacheFacts.run_snoc. by apply aborted_step.
Qed.

Lemma X7_witness :
  aborted (run [Effect 0 9000; Settle 1 (Resolved JNull) 9500; Invalidate 0]
             Scenarios.superseded) 0 = true.
Proof.
  apply (X7_aborted_stays_aborted
           [Effect 0 9000; Settle 1 (Resolved JNull) 9500; Invalidate 0]
           Scenarios.superseded 0).
  reflexivity.
Defined.

(** X8. Invalidation does not cancel what is in flight: when a fetch for the
    invalidated key is being awaited and resolves afterwards, its value is
    stored again, and reads of the key within five minutes of that moment are
    served from the cache without calling the fetcher. *)
Theorem X8_fetch_in_flight_refills_invalidated_key
    (s : Sys) (h : nat) (hk : Hook) (c : nat) (r : Request)
    (rest : list Request) (v : JsVal) (t : Z) :
  hooks s !! h = Some hk →
  take_request c (pending s) = Some (r, rest) →
  req_key r = key hk →
  let s1 := invalidateCache h s in
  let s2 := step (Settle c (Resolved v) t) s1 in
  cache s1 !! key hk = None ∧
  cache s2 !! key hk = Some (CacheEntry.mk v t) ∧
  ∀ h' hk' now,
    hooks s2 !! h' = Some hk' → key hk' = key hk →
    (now - t < 5 * 60 * 1000)%Z →
    pending (fetchData h' now s2) = pending s2 ∧
    data <$> hooks (fetchData h' now s2) !! h' = Some v.
Proof.
  intros Hh Ht Hk s1 s2.
  assert (s1 = cache_delete (key hk) s) as Hs1
    by (subst s1; unfold invalidateCache; by rewrite Hh).
  assert (cache s2 !! key hk = Some (CacheEntry.mk v t)) as Hc2.
  { subst s2. rewrite Hs1. simpl. rewrite Ht. unfold resume. simpl.
    rewrite Hk. apply lookup_insert_eq. }
  split_and!; [rewrite Hs1; apply lookup_delete_eq|done|].
  intros h' hk' now Hh' Hk' Hage. unfold fetchData.
  rewrite Hh', Hk', Hc2. unfold is_fresh, CACHE_DURATION. simpl.
  rewrite bool_decide_eq_true_2 by done. split; [done|].
  rewrite CacheFacts.lookup_setLoading, CacheFacts.lookup_setData, Hh'.
  by rewrite !decide_True by done.
Qed.

Lemma X8_witness :
  cache (step (Settle 1 (Resolved Scenarios.summary) 1600)
           (invalidateCache 0 Scenarios.superseded)) !! "dashboard" =
  Some (CacheEntry.mk Scenarios.summary 1600).
Proof.
  apply (X8_fetch_in_flight_refills_invalidated_key Scenarios.superseded 0
           (mkHook "dashboard" JNull true None (Some 1)) 1
           (mkRequest 0 "dashboard" 1) [mkRequest 0 "dashboard" 0]
           Scenarios.summary 1600); reflexivity.
Defined.

(** X25. Only the run of an effect calls the fetcher, and it calls it at
    most once, for its own hook, with a newly created controller.  Every
    other event (mounting, re-render, cleanup, settling, invalidation) starts
    no fetch and creates no controller: the awaited calls afterwards are
    among those awaited before. *)
Theorem X25_only_an_effect_starts_a_fetch (ev : Event) (s : Sys) :
  let s' := step ev s in
  (pending s' `sublist_of` pending s ∧
   length (controllers s') = length (controllers s)) ∨
  (∃ h now r,
     ev = Effect h now ∧ pending s' = pending s ++ [r] ∧
     req_hook r = h ∧
     req_signal r = length (controllers s) ∧
     length (controllers s') = S (length (controllers s))).
Proof.
  destruct ev as [k|h k|h now|h|c o now|h]; cbn [step].
  - by left.
  - by left.
  - unfold fetchData. destruct (hooks s !! h) as [hk|] eqn:Hh; [|by left].
    assert (∃ r, pending (start_request h hk s) = pending s ++ [r] ∧
                 req_hook r = h ∧ req_signal r = length (controllers s) ∧
                 length (controllers (start_request h hk s)) =
                   S (length (controllers s))) as (r & ? & ? & ? & ?).
    { destruct (CacheFacts.start_request_fields h hk s) as (_ & _ & Hp & Hc).
      eexists. split_and!; [exact Hp|done|done|].
      rewrite Hc, length_app. simpl.
      destruct (abortControllerRef hk); rewrite ?length_insert; lia. }
    destruct (cache s !! key hk) as [e|]; [destruct (is_fresh now e)|];
      [by left|right; by exists h, now, r..].
  - left. unfold cleanup. destruct (hooks s !! h) as [hk|]; [|done].
    destruct (abortControllerRef hk); [|done].
    simpl. by rewrite length_insert.
  - left. destruct (take_request c (pending s)) as [[r rest]|] eqn:Ht; [|done].
    destruct (CacheFacts.resume_fields r o now (set_pending rest s)) as [-> ->].
    split; [|done]. by apply CacheFacts.take_request_sublist in Ht as (_ & _ & ?).
  - left. unfold invalidateCache. by destruct (hooks s !! h).
Qed.

End CacheExtras.

(** ** Further properties of the provider *)

Module StudyExtras.
Import Js Study.

Lemma assoc_set_twice k v1 v2 props :
  assoc_set k v2 (assoc_set k v1 props) = assoc_set k v2 props.
Proof.
  induction props as [|[k' v'] props IH]; simpl.
  - by rewrite String.eqb_refl.
  - destruct (String.eqb k k') eqn:E; simpl.
    + by rewrite String.eqb_refl.
    + by rewrite E, IH.
Qed.

(** X9. The answer to the read of the current session replaces the local
    session only when it carries a truthy [currentSubject]; then [isStudying]
    becomes true exactly when its [status] is the string ['active'].  An
    answer without one ([null], an empty object, an empty subject) changes
    nothing: a session held locally is never cleared by this read. *)
Theorem X9_read_of_session_never_clears_it (w : World) (d : JsVal) (now : Z) :
  let w' := resume InFetchCurrentSession (Resolved d) now w in
  (truthy (opt_member d "currentSubject") = false → w' = w) ∧
  (truthy (opt_member d "currentSubject") = true →
   currentSession w' = d ∧
   isStudying w' = is_string (opt_member d "status") "active" ∧
   studyData w' = studyData w ∧ awaiting w' = awaiting w).
Proof.
  simpl. split; intros ->; done.
Qed.

Lemma X9_witness :
  resume InFetchCurrentSession (Resolved JNull) 70 Scenarios.studying =
    Scenarios.studying ∧
  isStudying (resume InFetchCurrentSession
                (Resolved MoreScenarios.pausedSession) 70 Scenarios.studying) =
    false.
Proof.
  destruct (X9_read_of_session_never_clears_it Scenarios.studying JNull 70)
    as [H1 _].
  destruct (X9_read_of_session_never_clears_it Scenarios.studying
              MoreScenarios.pausedSession 70) as [_ H2].
  split; [apply H1; reflexivity|].
  destruct H2 as (_ & H2 & _); [reflexivity|exact H2].
Defined.

(** X10. With a session object held, [pauseSession] posts the session with
    [status: 'paused'] and, on success, stores exactly that object and sets
    [isStudying] to false; a following successful [resumeSession] gives the
    session with [status: 'active'] and [isStudying = true].  Every other
    field of the session is as before, and what the server answers is not
    used. *)
Theorem X10_pause_then_resume
    (w : World) (props : list (string * JsVal)) (v1 v2 : JsVal) (t1 t2 : Z) :
  currentSession w = JObj props →
  let w1 := resume InPauseSession (Resolved v1) t1 w in
  let w2 := resume InResumeSession (Resolved v2) t2 w1 in
  awaiting (pauseSession w) =
    awaiting w ++
    [mkAwaiting (mkCall "POST" "/api/study/state"
                   (JObj (assoc_set "status" (JStr "paused") props)))
       InPauseSession] ∧
  currentSession w1 = JObj (assoc_set "status" (JStr "paused") props) ∧
  isStudying w1 = false ∧
  currentSession w2 = JObj (assoc_set "status" (JStr "active") props) ∧
  isStudying w2 = true ∧
  (∀ p, p ≠ "status" →
        member (currentSession w2) p = member (currentSession w) p).
Proof.
  intros Hs. simpl. unfold pauseSession, with_prop. rewrite Hs. simpl.
  split_and!; try done.
  - by rewrite assoc_set_twice.
  - intros p Hp. by rewrite assoc_set_twice, StudyFacts.assoc_assoc_set_ne.
Qed.

Lemma X10_witness :
  currentSession
    (resume InResumeSession (Resolved JNull) 90
       (resume InPauseSession (Resolved JNull) 80 Scenarios.studying)) =
  Scenarios.session.
Proof.
  refine (proj1 (proj2 (proj2 (proj2
    (X10_pause_then_resume Scenarios.studying
       [("currentSubject", JStr "Math"); ("elapsedTime", JNum 0);
        ("startTime", JDate 100); ("status", JStr "active")]
       JNull JNull 80 90 _))))).
  reflexivity.
Defined.

(** X11. Without a current session ([currentSession] is [null]),
    [endSession] makes no HTTP call: reading the subject throws inside the
    [try], one line is logged and nothing else changes.  [pauseSession] has
    no such guard: it still posts [{status: 'paused'}], and on success the
    session becomes an object that holds only that status. *)
Theorem X11_operations_without_a_session
    (w : World) (actualTime notes targetTime v : JsVal) (now : Z) :
  currentSession w = JNull →
  (let w' := endSession actualTime notes targetTime now w in
   awaiting w' = awaiting w ∧
   console w' = console w ++ [("Failed to end session:", typeError)] ∧
   currentSession w' = JNull ∧ isStudying w' = isStudying w ∧
   lastFetch w' = lastFetch w ∧ api w' = api w ∧ studyData w' = studyData w) ∧
  awaiting (pauseSession w) =
    awaiting w ++
    [mkAwaiting (mkCall "POST" "/api/study/state"
                   (JObj [("status", JStr "paused")])) InPauseSession] ∧
  (let w' := resume InPauseSession (Resolved v) now w in
   currentSession w' = JObj [("status", JStr "paused")] ∧
   isStudying w' = false).
Proof.
  intros Hs. unfold endSession, pauseSession, with_prop. simpl.
  rewrite Hs. done.
Qed.

Lemma X11_witness :
  awaiting (endSession (JNum 25) JUndefined (JNum 30) 500 initial) = [] ∧
  currentSession (resume InPauseSession (Resolved JNull) 500 initial) =
    JObj [("status", JStr "paused")].
Proof.
  destruct (X11_operations_without_a_session initial
              (JNum 25) JUndefined (JNum 30) JNull 500)
    as ((H1 & _) & _ & (H2 & _)); [reflexivity|].
  split; [exact H1|exact H2].
Defined.

(** X12. A call of [endSession] on its own, both HTTP calls succeeding: it
    posts the completed session (subject and start time of the current
    session, end time now, [notes] defaulting to the empty string); the
    local session is still in place while the DELETE is awaited; after the
    DELETE the session is [null], [isStudying] is false, today's subjects
    are being read, and the refresh sets [lastFetch] unless fewer than
    2000 ms have passed since the [lastFetch] seen at the call. *)
Theorem X12_endSession_runs_to_completion
    (w : World) (subject start actualTime notes targetTime v1 v2 : JsVal)
    (t0 t1 t2 : Z) :
  member (currentSession w) "currentSubject" = Some subject →
  member (currentSession w) "startTime" = Some start →
  let i := length (awaiting w) in
  let w1 := step (CallEndSession actualTime notes targetTime t0) w in
  let w2 := step (Response i (Resolved v1) t1) w1 in
  let w3 := step (Response i (Resolved v2) t2) w2 in
  awaiting w1 =
    awaiting w ++
    [mkAwaiting
       (mkCall "POST" "/api/study/sessions"
          (JObj [("subject", subject); ("actualTime", actualTime);
                 ("targetTime", targetTime); ("startTime", start);
                 ("endTime", JDate t0); ("completed", JBool true);
                 ("notes", default notes (JStr ""))]))
       (InEndSession_post (lastFetch w))] ∧
  awaiting w2 =
    awaiting w ++
    [mkAwaiting (mkCall "DELETE" "/api/study/state" JUndefined)
       (InEndSession_delete (lastFetch w))] ∧
  currentSession w2 = currentSession w ∧ isStudying w2 = isStudying w ∧
  currentSession w3 = JNull ∧ isStudying w3 = false ∧
  awaiting w3 =
    awaiting w ++
    [mkAwaiting (mkCall "GET" "/api/study/sessions/today" JUndefined)
       InFetchCompletedSubjects] ∧
  studyData w3 = studyData w ∧
  lastFetch w3 =
    if bool_decide (t2 - lastFetch w < 2000)%Z then lastFetch w else t2.
Proof.
  intros Hsub Hstart i w1 w2 w3.
  assert (w1 = await
            (mkCall "POST" "/api/study/sessions"
               (JObj [("subject", subject); ("actualTime", actualTime);
                      ("targetTime", targetTime); ("startTime", start);
                      ("endTime", JDate t0); ("completed", JBool true);
                      ("notes", default notes (JStr ""))]))
            (InEndSession_post (lastFetch w)) w) as Hw1.
  { subst w1. cbn [step]. unfold endSession. by rewrite Hsub, Hstart. }
  assert (w2 = await (mkCall "DELETE" "/api/study/state" JUndefined)
                 (InEndSession_delete (lastFetch w)) w) as Hw2.
  { subst w2. rewrite Hw1. cbn [step]. unfold await at 1 2. simpl awaiting.
    subst i. rewrite list_lookup_middle by done. rewrite delete_middle.
    simpl. unfold await, set_awaiting. simpl. by rewrite app_nil_r. }
  assert (w3 = fetchCompletedSubjects
                 (fetchDashboardAndTimetables (lastFetch w) t2
                    (setIsStudying false
                       (setCurrentSession (λ _, JNull) w)))) as Hw3.
  { subst w3. rewrite Hw2. cbn [step]. unfold await at 1 2. simpl awaiting.
    subst i. rewrite list_lookup_middle by done. rewrite delete_middle.
    simpl. unfold set_awaiting, setCurrentSession, setIsStudying. simpl.
    rewrite app_nil_r. by destruct w. }
  rewrite Hw1, Hw2, Hw3. unfold fetchDashboardAndTimetables.
  split_and!; try done; by case_bool_decide.
Qed.

Lemma X12_witness :
  currentSession
    (step (Response 0 (Resolved JNull) 2500)
       (step (Response 0 (Resolved JNull) 2400)
          (step (CallEndSession (JNum 25) JUndefined (JNum 30) 2000)
             Scenarios.studying))) = JNull.
Proof.
  refine (proj1 (proj2 (proj2 (proj2 (proj2
    (X12_endSession_runs_to_completion Scenarios.studying
       (JStr "Math") (JDate 100) (JNum 25) JUndefined (JNum 30) JNull JNull
       2000 2400 2500 _ _)))))); reflexivity.
Defined.

(** X13. Whenever a read of today's completed subjects completes, with any
    answer or with a failure, the [completedSubjects] field holds a truthy
    value afterwards: the answer itself when it is truthy, the empty array
    when the answer is [null], [undefined], [0], [false] or the empty
    string, or when the read failed. *)
Theorem X13_completedSubjects_is_never_left_falsy
    (w : World) (o : Outcome) (now : Z) :
  let w' := resume InFetchCompletedSubjects o now w in
  ∃ v, member (studyData w') "completedSubjects" = Some v ∧
       truthy v = true ∧
       v = match o with
           | Resolved d => if truthy d then d else JArr []
           | Rejected _ => JArr []
           end.
Proof.
  destruct o as [d|err]; simpl; rewrite StudyFacts.assoc_assoc_set.
  - eexists. split_and!; [done| |done]. unfold or_else.
    by destruct (truthy d) eqn:E.
  - by eexists.
Qed.

Lemma refresh_frame seen now w :
  let w' := fetchDashboardAndTimetables seen now w in
  ApiCache.hooks (api w') = ApiCache.hooks (api w) ∧
  ApiCache.pending (api w') = ApiCache.pending (api w) ∧
  ApiCache.controllers (api w') = ApiCache.controllers (api w) ∧
  ∀ k, cached w' k = cached w k ∨
       (cached w' k = None ∧ (k = "dashboard" ∨ k = "timetables")).
Proof.
  unfold fetchDashboardAndTimetables. case_bool_decide; simpl.
  - split_and!; try done. by left.
  - split_and!; try done. intros k. unfold cached; simpl.
    destruct (decide (k = "timetables")) as [->|H1].
    { right. split; [apply lookup_delete_eq|by right]. }
    destruct (decide (k = "dashboard")) as [->|H2].
    { right. split; [|by left].
      rewrite lookup_delete_ne by done. apply lookup_delete_eq. }
    left. by rewrite !lookup_delete_ne.
Qed.

(** X14. The provider's own operations never start a fetch and never change
    what its cached reads show: whatever is called or answered (every event
    that is not an event of the cache system itself), the hooks' state, the
    awaited fetches and the controllers stay as they are, and the only
    change to the cache map is the removal of the ['dashboard'] and
    ['timetables'] entries by an accepted refresh. *)
Theorem X14_provider_only_deletes_two_cache_keys (ev : Event) (w : World) :
  (∀ e, ev ≠ Cache e) →
  let w' := step ev w in
  ApiCache.hooks (api w') = ApiCache.hooks (api w) ∧
  ApiCache.pending (api w') = ApiCache.pending (api w) ∧
  ApiCache.controllers (api w') = ApiCache.controllers (api w) ∧
  ∀ k, cached w' k = cached w k ∨
       (cached w' k = None ∧ (k = "dashboard" ∨ k = "timetables")).
Proof.
  intros Hev.
  assert (∀ w0 : World,
    api w0 = api w →
    ApiCache.hooks (api w0) = ApiCache.hooks (api w) ∧
    ApiCache.pending (api w0) = ApiCache.pending (api w) ∧
    ApiCache.controllers (api w0) = ApiCache.controllers (api w) ∧
    ∀ k, cached w0 k = cached w k ∨
         (cached w0 k = None ∧ (k = "dashboard" ∨ k = "timetables"))) as Hsame.
  { intros w0 E. unfold cached. rewrite E. split_and!; try done. by left. }
  destruct ev; cbn [step]; try (by apply Hsame).
  - by destruct (Hev e).
  - apply refresh_frame.
  - apply Hsame. unfold endSession.
    by destruct (member (currentSession w) "currentSubject"),
                (member (currentSession w) "startTime").
  - destruct (awaiting w !! i) as [a|]; [|by apply Hsame].
    destruct (cont a), o; try (by apply Hsame).
    + apply Hsame. simpl. by destruct (truthy _).
    + simpl.
      apply (refresh_frame lastFetch_seen now
               (setIsStudying false
                  (setCurrentSession (λ _, JNull)
                     (set_awaiting (delete i (awaiting w)) w)))).
Qed.

Lemma X14_witness :
  ApiCache.pending (api (step (CallFetchDashboardAndTimetables 5000)
                           Scenarios.studying)) =
  ApiCache.pending (api Scenarios.studying).
Proof.
  refine (proj1 (proj2 (X14_provider_only_deletes_two_cache_keys
    (CallFetchDashboardAndTimetables 5000) Scenarios.studying _))).
  done.
Defined.

Lemma refresh_lastFetch seen now w :
  let w' := fetchDashboardAndTimetables seen now w in
  lastFetch w' = lastFetch w ∨
  (lastFetch w' = now ∧
   cached w' "dashboard" = None ∧ cached w' "timetables" = None).
Proof.
  unfold fetchDashboardAndTimetables. case_bool_decide; [by left|right].
  unfold cached; simpl. split_and!; [done| |apply lookup_delete_eq].
  rewrite lookup_delete_ne by done. apply lookup_delete_eq.
Qed.

(** X15. The rate-limiting timestamp is written only by an accepted
    refresh: after any event, [lastFetch] either is what it was, or it is the
    time of that event, the event being a direct call of
    [fetchDashboardAndTimetables] or an answer to an awaited HTTP call, and
    both cache entries are gone. *)
Theorem X15_lastFetch_is_written_only_by_an_accepted_refresh
    (ev : Event) (w : World) :
  let w' := step ev w in
  lastFetch w' = lastFetch w ∨
  (cached w' "dashboard" = None ∧ cached w' "timetables" = None ∧
   (ev = CallFetchDashboardAndTimetables (lastFetch w') ∨
    ∃ i o, ev = Response i o (lastFetch w'))).
Proof.
  destruct ev; cbn [step]; try (by left).
  - destruct (refresh_lastFetch (lastFetch w) now w) as [?|(E & ? & ?)];
      [by left|right]. split_and!; [done..|]. left. by rewrite E.
  - left. unfold endSession.
    by destruct (member (currentSession w) "currentSubject"),
                (member (currentSession w) "startTime").
  - destruct (awaiting w !! i) as [a|]; [|by left].
    destruct (cont a), o; try (by left).
    + left. simpl. by destruct (truthy _).
    + simpl.
      destruct (refresh_lastFetch lastFetch_seen now
                  (setIsStudying false
                     (setCurrentSession (λ _, JNull)
                        (set_awaiting (delete i (awaiting w)) w))))
        as [?|(E & ? & ?)]; [by left|right].
      split_and!; [done..|]. right. exists i, (Resolved v).
      simpl in E. by rewrite E.
Qed.

(** X16. When the HTTP call of [startStudySession], [pauseSession] or
    [resumeSession] fails, the session, [isStudying], [studyData],
    [lastFetch] and the cache system are left exactly as they were, no
    further call is made and nothing is retried; one line is written to the
    console. *)
Theorem X16_failed_session_operation_changes_nothing
    (w : World) (i : nat) (a : Awaiting) (err : JsError) (now : Z) :
  awaiting w !! i = Some a →
  cont a ∈ [InStartStudySession; InPauseSession; InResumeSession] →
  let w' := step (Response i (Rejected err) now) w in
  currentSession w' = currentSession w ∧
  isStudying w' = isStudying w ∧
  studyData w' = studyData w ∧
  lastFetch w' = lastFetch w ∧
  api w' = api w ∧
  awaiting w' = delete i (awaiting w) ∧
  ∃ msg, console w' = console w ++ [(msg, err)].
Proof.
  intros Ha Hk. cbn [step]. rewrite Ha.
  apply elem_of_cons in Hk as [->|Hk]; [by split_and!; try eexists|].
  apply elem_of_cons in Hk as [->|Hk]; [by split_and!; try eexists|].
  apply list_elem_of_singleton in Hk as ->. by split_and!; try eexists.
Qed.

Lemma X16_witness :
  currentSession (step (Response 0 (Rejected Scenarios.networkError) 90)
                    (step CallPauseSession Scenarios.studying)) =
  Scenarios.session.
Proof.
  refine (proj1 (X16_failed_session_operation_changes_nothing
    (step CallPauseSession Scenarios.studying) 0
    (mkAwaiting (mkCall "POST" "/api/study/state"
                   (with_prop Scenarios.session "status" (JStr "paused")))
       InPauseSession)
    Scenarios.networkError 90 _ _)).
  - reflexivity.
  - right. left.
Defined.

End StudyExtras.

(** ** Properties of the provider's effects on the cached data *)

Module SyncExtras.
Import Js Study StudySync.





Lemma find_active_first l1 t l2 :
  (∀ x, x ∈ l1 → ∃ a, member x "isActive" = Some a ∧ truthy a = false) →
  (∃ a, member t "isActive" = Some a ∧ truthy a = true) →
  find_active (l1 ++ t :: l2) = Some t.
Proof.
  intros H1 (a & Ha & Hta). induction l1 as [|x l1 IH]; simpl.
  - by rewrite Ha, Hta.
  - destruct (H1 x) as (b & -> & ->); [left|].
    apply IH. intros y Hy. apply H1. by right.
Qed.

Lemma find_active_none items :
  (∀ x, x ∈ items → ∃ a, member x "isActive" = Some a ∧ truthy a = false) →
  find_active items = Some JUndefined.
Proof.
  induction items as [|x items IH]; intros H; simpl; [done|].
  destruct (H x) as (b & -> & ->); [left|].
  apply IH. intros y Hy. apply H. by right.
Qed.

(** X18. When the cached timetables read delivers an array, [studyData]
    gets the array as [timetables] and, as [activeTimetable], the first
    element in list order whose [isActive] is truthy; later elements that
    are active too are ignored.  The other fields of [studyData] keep their
    values. *)
Theorem X18_first_active_timetable_wins
    (w : World) (props : list (string * JsVal)) (l1 l2 : list JsVal) (t : JsVal) :
  studyData w = JObj props →
  (∀ x, x ∈ l1 → ∃ a, member x "isActive" = Some a ∧ truthy a = false) →
  (∃ a, member t "isActive" = Some a ∧ truthy a = true) →
  ∃ w', syncTimetables (JArr (l1 ++ t :: l2)) w = Some w' ∧
        member (studyData w') "activeTimetable" = Some t ∧
        member (studyData w') "timetables" = Some (JArr (l1 ++ t :: l2)) ∧
        (∀ p, p ≠ "timetables" → p ≠ "activeTimetable" →
              member (studyData w') p = member (studyData w) p).
Proof.
  intros Hsd H1 Ht. unfold syncTimetables. simpl truthy. cbv iota.
  rewrite (find_active_first l1 t l2 H1 Ht). eexists. split; [done|].
  simpl. rewrite Hsd. simpl. split_and!.
  - by rewrite StudyFacts.assoc_assoc_set.
  - rewrite StudyFacts.assoc_assoc_set_ne by done.
    by rewrite StudyFacts.assoc_assoc_set.
  - intros p Hp1 Hp2. by rewrite !StudyFacts.assoc_assoc_set_ne.
Qed.

Lemma X18_witness :
  ∃ w', syncTimetables
          (JArr [MoreScenarios.timetableA; MoreScenarios.timetableB;
                 MoreScenarios.timetableC]) Scenarios.studying = Some w' ∧
        member (studyData w') "activeTimetable" =
          Some MoreScenarios.timetableB.
Proof.
  destruct (X18_first_active_timetable_wins Scenarios.studying
    [("todayReading", JNum 0); ("studySessions", JNum 0);
     ("currentStreak", JNum 0); ("highestStreak", JNum 0);
     ("weeklyData", JArr []); ("timetables", JArr []);
     ("activeTimetable", JNull); ("notes", JArr []);
     ("completedSubjects", JArr [JStr "Physics"])]
    [MoreScenarios.timetableA] [MoreScenarios.timetableC]
    MoreScenarios.timetableB) as (w' & H1 & H2 & _).
  - reflexivity.
  - intros x ->%list_elem_of_singleton. by exists (JBool false).
  - by exists (JBool true).
  - exists w'. split; [exact H1|exact H2].
Defined.

(** X19. When no element of the delivered array is active (the empty array
    included), [activeTimetable] becomes [undefined], not the [null] it
    starts with.  When the delivered data is truthy but not an array, or
    when a [null] element comes before the first active one, the effect
    throws; when the data is falsy nothing is changed. *)
Theorem X19_no_active_timetable (w : World) (items l2 : list JsVal) :
  (∀ x, x ∈ items → ∃ a, member x "isActive" = Some a ∧ truthy a = false) →
  (∃ w', syncTimetables (JArr items) w = Some w' ∧
         member (studyData w') "activeTimetable" = Some JUndefined ∧
         member (studyData w') "timetables" = Some (JArr items)) ∧
  syncTimetables (JArr (items ++ JNull :: l2)) w = None ∧
  (∀ d, truthy d = true → (∀ l, d ≠ JArr l) → syncTimetables d w = None) ∧
  (∀ d, truthy d = false → syncTimetables d w = Some w).
Proof.
  intros H. split_and!.
  - unfold syncTimetables. simpl truthy. cbv iota.
    rewrite (find_active_none items H). eexists. split; [done|].
    simpl. split.
    + by rewrite StudyFacts.assoc_assoc_set.
    + rewrite StudyFacts.assoc_assoc_set_ne by done.
      by rewrite StudyFacts.assoc_assoc_set.
  - unfold syncTimetables. simpl truthy. cbv iota.
    assert (find_active (items ++ JNull :: l2) = None) as ->; [|done].
    induction items as [|x items IH]; simpl; [done|].
    destruct (H x) as (b & -> & ->); [left|].
    apply IH. intros y Hy. apply H. by right.
  - intros d Hd Hna. unfold syncTimetables. rewrite Hd.
    destruct d; try done. by destruct (Hna items0).
  - intros d Hd. unfold syncTimetables. by rewrite Hd.
Qed.

Lemma X19_witness :
  ∃ w', syncTimetables (JArr [MoreScenarios.timetableA]) initial = Some w' ∧
        member (studyData w') "activeTimetable" = Some JUndefined.
Proof.
  destruct (X19_no_active_timetable initial [MoreScenarios.timetableA] [])
    as ((w' & H1 & H2 & _) & _).
  - intros x ->%list_elem_of_singleton. by exists (JBool false).
  - exists w'. split; [exact H1|exact H2].
Defined.

End SyncExtras.

(** ** Properties of the route table *)

Module AppExtras.
Import Js App.



(** X21. Redirects end on a page: if the router matches every literal route
    path against itself, the location [App] redirects to is one at which it
    renders a page for the same user, so there is no chain of redirects. *)
Theorem X21_redirects_end_on_a_page
    (matches : string → string → bool) (loading : bool) (user : JsVal)
    (location to : string) :
  (∀ p, matches p p = true) →
  App matches loading user location = Navigate to →
  ∃ layout page, App matches loading user to = Show layout page.
Proof.
  intros Hm. unfold App. destruct loading; [done|].
  destruct (truthy user).
  - destruct (isEmailVerified user); [|done]. simpl.
    repeat (destruct (matches _ location); [done|]).
    intros [= <-]. rewrite Hm. by eexists _, _.
  - simpl. repeat (destruct (matches _ location); [done|]).
    intros [= <-]. rewrite Hm. by eexists _, _.
Qed.

Lemma X21_witness :
  ∃ layout page,
    App MoreScenarios.literally false JNull "/login" = Show layout page.
Proof.
  apply (X21_redirects_end_on_a_page MoreScenarios.literally false JNull
           "/profile" "/login").
  - intros p. apply String.eqb_refl.
  - reflexivity.
Defined.

End AppExtras.

(** ** Properties of the e-mail verification screen *)

Module EmailExtras.
Import Js EmailVerification.

Lemma email_run_snoc evs ev st : run (evs ++ [ev]) st = step ev (run evs st).
Proof. unfold run. by rewrite foldl_app. Qed.

Lemma on_error_frame error st :
  ∃ t, on_error error st =
       mkState (isResending st) (countdown st) (awaiting st) t.
Proof.
  unfold on_error. destruct (member error "response"); [by eexists|].
  exists (toasts st). by destruct st.
Qed.

Lemma ok_step ev st : ok st → ok (step ev st).
Proof.
  intros Hok. pose proof Hok as [Hr Hf Ho Hi].
  destruct ev as [user|o|]; simpl.
  - unfold handleResendVerification.
    destruct (0 <? countdown st)%Z eqn:Hc; [done|].
    destruct (isResending st) eqn:Hres; [done|]. simpl.
    apply Z.ltb_ge in Hc.
    assert (awaiting st = []) as Hnil.
    { symmetry in Hf. apply bool_decide_eq_false in Hf.
      by destruct (awaiting st); [|destruct Hf]. }
    destruct (member user "email") as [email|].
    + split; simpl; rewrite ?Hnil; simpl; first [done|lia|intros; lia].
    + destruct (on_error_frame typeErrorObject (setIsResending true st))
        as [t ->].
      split; simpl; rewrite ?Hnil; simpl; first [done|lia|intros; lia].
  - destruct (awaiting st) as [|b rest] eqn:Ha; [done|].
    assert (rest = []) as -> by (destruct rest; [done|simpl in Ho; lia]).
    assert (countdown st = 0%Z) as H0 by (by apply Hi).
    destruct o as [v|error]; unfold resume.
    + split; simpl; first [done|lia|intros; lia].
    + destruct (on_error_frame error
                  (mkState (isResending st) (countdown st) [] (toasts st)))
        as [t ->].
      split; simpl; first [done|lia|intros; lia].
  - unfold tick. destruct (0 <? countdown st)%Z eqn:Hc; [|done].
    apply Z.ltb_lt in Hc. split; simpl; [lia|done|done|].
    intros Ha. specialize (Hi Ha). lia.
Qed.

(** X22. In every state the verification screen reaches, the countdown is
    between 0 and 60, at most one resend request is being awaited,
    [isResending] is true exactly while one is, and none is awaited while
    the countdown runs. *)
Theorem X22_one_resend_at_a_time (evs : list Event) :
  let st := run evs init in
  (0 ≤ countdown st ≤ 60)%Z ∧
  (length (awaiting st) ≤ 1)%nat ∧
  (isResending st = true ↔ awaiting st ≠ []) ∧
  (awaiting st ≠ [] → countdown st = 0%Z).
Proof.
  simpl. assert (ok (run evs init)) as [Hr Hf Ho Hi].
  { induction evs as [|ev evs IH] using rev_ind.
    - split; simpl; [lia|done|lia|done].
    - rewrite email_run_snoc. by apply ok_step. }
  split_and!; [lia..|done| |done].
  rewrite Hf. apply bool_decide_eq_true.
Qed.

Lemma ticks n st :
  (0 ≤ countdown st)%Z →
  run (replicate n Tick) st =
  setCountdown (Z.max 0 (countdown st - Z.of_nat n)) st.
Proof.
  revert st. induction n as [|n IH]; intros st H0.
  - simpl. unfold setCountdown. destruct st as [a c b d]. simpl in *.
    f_equal. lia.
  - change (run (replicate (S n) Tick) st)
      with (run (replicate n Tick) (tick st)).
    unfold tick. destruct (0 <? countdown st)%Z eqn:Hc.
    + apply Z.ltb_lt in Hc. rewrite IH by (simpl; lia).
      unfold setCountdown. simpl. f_equal. lia.
    + apply Z.ltb_ge in Hc. rewrite IH by done.
      unfold setCountdown. f_equal. lia.
Qed.

(** X23. After a successful resend the countdown is 60.  For the next 59
    ticks of the one-second timer a click on resend does nothing at all;
    after 60 ticks the countdown is 0 and a click posts the user's e-mail
    address again. *)
Theorem X23_resend_cooldown
    (st : State) (v user email : JsVal) (n : nat) :
  n < 60 →
  awaiting st = [] →
  member user "email" = Some email →
  let st1 := resume (Fulfilled v) st in
  countdown st1 = 60%Z ∧
  isResending st1 = false ∧
  step (Click user) (run (replicate n Tick) st1) = run (replicate n Tick) st1 ∧
  countdown (run (replicate 60 Tick) st1) = 0%Z ∧
  awaiting (step (Click user) (run (replicate 60 Tick) st1)) =
    [JObj [("email", email)]].
Proof.
  intros Hn Ha Hu st1.
  assert (countdown st1 = 60%Z) as Hc by done.
  split_and!; [done|done|..].
  - rewrite ticks by (rewrite Hc; lia). simpl.
    unfold handleResendVerification. simpl.
    destruct (0 <? 0 `max` (60 - Z.of_nat n))%Z eqn:E; [done|].
    apply Z.ltb_ge in E. lia.
  - rewrite ticks by (rewrite Hc; lia). simpl. lia.
  - rewrite ticks by (rewrite Hc; lia). simpl.
    unfold handleResendVerification. simpl. rewrite Hu. simpl. by rewrite Ha.
Qed.

Lemma X23_witness :
  step (Click MoreScenarios.plainUser)
    (run (replicate 59 Tick) (resume (Fulfilled JNull) init)) =
  run (replicate 59 Tick) (resume (Fulfilled JNull) init).
Proof.
  refine (proj1 (proj2 (proj2
    (X23_resend_cooldown init JNull MoreScenarios.plainUser (JStr "a@b.c")
       59 _ _ _)))); [lia|reflexivity|reflexivity].
Defined.

(** X24. A failed resend starts no cooldown: the countdown is unchanged,
    [isResending] is false again, and one error toast is shown, with the
    message of the server's answer when it has a truthy one and the fixed
    text otherwise.  A click while there is no user fails the same way
    without any request being made. *)
Theorem X24_failed_resend_can_be_retried
    (st : State) (error response : JsVal) :
  member error "response" = Some response →
  (let st' := resume (Thrown error) st in
   countdown st' = countdown st ∧
   isResending st' = false ∧
   awaiting st' = awaiting st ∧
   toasts st' =
     toasts st ++
     [ToastError
        (or_else (opt_member (opt_member response "data") "message")
           (JStr "Failed to resend verification email"))]) ∧
  ((countdown st ≤ 0)%Z → isResending st = false →
   let st' := handleResendVerification JNull st in
   countdown st' = countdown st ∧
   isResending st' = false ∧
   awaiting st' = awaiting st ∧
   toasts st' =
     toasts st ++ [ToastError (JStr "Failed to resend verification email")]).
Proof.
  intros Hr. split.
  - simpl. unfold on_error. by rewrite Hr.
  - intros Hc Hres. simpl. unfold handleResendVerification.
    rewrite (proj2 (Z.ltb_ge 0 (countdown st))) by done. by rewrite Hres.
Qed.

Lemma X24_witness :
  toasts (resume (Thrown MoreScenarios.rateLimited) init) =
  [ToastError (JStr "Too many requests")].
Proof.
  refine (proj2 (proj2 (proj2 (proj1
    (X24_failed_resend_can_be_retried init MoreScenarios.rateLimited
       (JObj [("data", JObj [("message", JStr "Too many requests")])]) _))))).
  reflexivity.
Defined.

End EmailExtras.
